(** * cloud-cost-tracker: the two Lambda handlers and their table

    A shallow embedding of

      - [src/Lambda/lambda_function.py]      (the notifier: one [put_item]),
      - [src/API_Integration/api_lambda.py]  (the log reader: one [scan]),

    together with the parts of Python they rely on: dynamic values and
    their [dict.get] / subscript operations, [json.dumps],
    [datetime.isoformat], [os.environ] and exceptions.  The DynamoDB
    table is an external capability; it is an interface here
    ([TableCapability]) with an in-memory implementation used to run the
    handlers on concrete inputs.  What a scan hands back are the objects
    the SDK builds ([pyobj]): every number of the table is a [Decimal]
    there. *)

From Stdlib Require Import ZArith NArith Ascii String List Bool Lia.
From stdpp Require Import gmap strings.
Import ListNotations.

Local Open Scope string_scope.
Local Open Scope Z_scope.

(** ** Python values

    The values a handler can receive from [json.loads] and hand to
    [json.dumps]: [None], booleans, integers (unbounded), strings, lists
    and dicts with string keys.  A dict keeps its insertion order (the
    order [json.dumps] prints it in), so it is an association list; a
    Python dict never holds a key twice.  A [str] is a [string] whose
    characters are the code points U+0000..U+00FF.  Numbers with a
    fractional part (Python [float]) are outside this model.  The
    objects that are not JSON at all ([Decimal], [Binary], [set]) never
    reach a handler in its event; a scan returns them, and they are in
    [pyobj] below. *)

#[warnings="-register-all"]
Inductive value : Type :=
| VNone
| VBool (b : bool)
| VInt (n : Z)
| VStr (s : string)
| VList (items : list value)
| VDict (fields : list (string * value)).

(** The induction principle that reaches inside lists and dicts. *)
Section value_induction.
Variable P : value -> Prop.
Hypothesis HNone : P VNone.
Hypothesis HBool : forall b, P (VBool b).
Hypothesis HInt : forall n, P (VInt n).
Hypothesis HStr : forall s, P (VStr s).
Hypothesis HList : forall items, Forall P items -> P (VList items).
Hypothesis HDict :
  forall fields, Forall (fun kv => P (snd kv)) fields -> P (VDict fields).

Fixpoint value_nested_ind (v : value) : P v :=
  match v with
  | VNone => HNone
  | VBool b => HBool b
  | VInt n => HInt n
  | VStr s => HStr s
  | VList items =>
      HList items
        ((fix go (l : list value) : Forall P l :=
            match l with
            | [] => @List.Forall_nil _ P
            | x :: r => @List.Forall_cons _ P x r (value_nested_ind x) (go r)
            end) items)
  | VDict fields =>
      HDict fields
        ((fix go (l : list (string * value))
            : Forall (fun kv => P (snd kv)) l :=
            match l with
            | [] => @List.Forall_nil _ _
            | kv :: r =>
                @List.Forall_cons _ (fun kv => P (snd kv)) kv r
                  (value_nested_ind (snd kv)) (go r)
            end) fields)
  end.
End value_induction.

(** ** Exceptions and results *)

Inductive exn : Type :=
| AttributeError                 (* no attribute [get] on this object *)
| IndexError                     (* sequence index out of range *)
| KeyError (key : value)         (* missing dict / environment key *)
| TypeError                      (* not subscriptable, not JSON serializable *)
| ClientError (code : string)    (* a failure reported by the table service *)
| Rounded.                       (* [decimal.Rounded]: too many digits *)

Inductive result (A : Type) : Type :=
| Ok (a : A)
| Raise (e : exn).
Arguments Ok {A} a.
Arguments Raise {A} e.

Definition rbind {A B} (r : result A) (k : A -> result B) : result B :=
  match r with
  | Ok a => k a
  | Raise e => Raise e
  end.

(** ** Operations on values *)

Fixpoint dict_lookup (key : string) (fields : list (string * value))
  : option value :=
  match fields with
  | [] => None
  | (k, v) :: rest => if String.eqb k key then Some v else dict_lookup key rest
  end.

(** [o.get(key, default)]: only a dict has the method. *)
Definition py_get (o : value) (key : string) (default : value) : result value :=
  match o with
  | VDict fields =>
      Ok (match dict_lookup key fields with
          | Some v => v
          | None => default
          end)
  | _ => Raise AttributeError
  end.

(** Index normalisation of a sequence subscript: a negative index counts
    from the end. *)
Definition seq_index (len i : Z) : option nat :=
  let j := if i <? 0 then i + len else i in
  if (0 <=? j) && (j <? len) then Some (Z.to_nat j) else None.

(** [o[i]] for an integer [i]. *)
Definition py_getitem (o : value) (i : Z) : result value :=
  match o with
  | VList items =>
      match seq_index (Z.of_nat (List.length items)) i with
      | Some j =>
          match nth_error items j with
          | Some v => Ok v
          | None => Raise IndexError
          end
      | None => Raise IndexError
      end
  | VStr s =>
      match seq_index (Z.of_nat (String.length s)) i with
      | Some j =>
          match String.get j s with
          | Some c => Ok (VStr (String c EmptyString))
          | None => Raise IndexError
          end
      | None => Raise IndexError
      end
  | VDict _ => Raise (KeyError (VInt i))   (* keys are strings *)
  | VNone | VBool _ | VInt _ => Raise TypeError
  end.

(** ** Decimal text of integers ([int.__repr__], [%d]) *)

Definition digit_char (d : N) : ascii :=
  ascii_of_N (48 + d).

Fixpoint digits_fuel (fuel : nat) (n : N) : string :=
  match fuel with
  | O => EmptyString
  | S fuel' =>
      if (n <? 10)%N then String (digit_char n) EmptyString
      else digits_fuel fuel' (n / 10)%N
             ++ String (digit_char (n mod 10)%N) EmptyString
  end.

(** The decimal digits of [n], most significant first; every division by
    ten removes at least one binary digit, so [N.size_nat n] steps (one
    more for zero) are enough. *)
Definition N_repr (n : N) : string :=
  digits_fuel (S (N.size_nat n)) n.

Definition int_repr (z : Z) : string :=
  if z <? 0 then String "-" (N_repr (Z.abs_N z)) else N_repr (Z.to_N z).

Fixpoint zeros (k : nat) : string :=
  match k with
  | O => EmptyString
  | S k' => String "0" (zeros k')
  end.

(** ["%0<width>d" % n] for a non-negative [n]: zero padding on the left up
    to [width], never truncating. *)
Definition fmt_0d (width : nat) (n : N) : string :=
  let s := N_repr n in
  zeros (width - String.length s) ++ s.

(** ** [json.dumps]

    The encoder with its default options: [ensure_ascii=True], item
    separator [", "], key separator [": "], no indentation. *)

Definition dquote : ascii := "034".
Definition backslash : ascii := "092".

Definition hex_char (d : N) : ascii :=
  if (d <? 10)%N then ascii_of_N (48 + d) else ascii_of_N (87 + d).

(** ['\\u{0:04x}'.format(n)] *)
Definition u_escape (n : N) : string :=
  String backslash (String "u"
    (String (hex_char ((n / 4096) mod 16)%N)
    (String (hex_char ((n / 256) mod 16)%N)
    (String (hex_char ((n / 16) mod 16)%N)
    (String (hex_char (n mod 16)%N) EmptyString))))).

(** The replacement [json.encoder.py_encode_basestring_ascii] makes for one
    character: the two-character escapes of [ESCAPE_DCT], the character
    itself inside [' '..'~'], a [\uXXXX] escape for every other one. *)
Definition escape_char (c : ascii) : string :=
  let n := N_of_ascii c in
  if (n =? 34)%N then String backslash (String dquote EmptyString)
  else if (n =? 92)%N then String backslash (String backslash EmptyString)
  else if (n =? 8)%N then String backslash "b"
  else if (n =? 12)%N then String backslash "f"
  else if (n =? 10)%N then String backslash "n"
  else if (n =? 13)%N then String backslash "r"
  else if (n =? 9)%N then String backslash "t"
  else if (32 <=? n)%N && (n <=? 126)%N then String c EmptyString
  else u_escape n.

Fixpoint escape_chars (s : string) : string :=
  match s with
  | EmptyString => EmptyString
  | String c rest => escape_char c ++ escape_chars rest
  end.

Definition encode_basestring_ascii (s : string) : string :=
  String dquote (escape_chars s ++ String dquote EmptyString).

Fixpoint json_dumps (v : value) : string :=
  match v with
  | VNone => "null"
  | VBool true => "true"
  | VBool false => "false"
  | VInt n => int_repr n
  | VStr s => encode_basestring_ascii s
  | VList items =>
      match items with
      | [] => "[]"
      | x :: rest =>
          "[" ++ json_dumps x
              ++ (fix tail (l : list value) : string :=
                    match l with
                    | [] => "]"
                    | y :: l' => ", " ++ json_dumps y ++ tail l'
                    end) rest
      end
  | VDict fields =>
      match fields with
      | [] => "{}"
      | (k, x) :: rest =>
          "{" ++ encode_basestring_ascii k ++ ": " ++ json_dumps x
              ++ (fix tail (l : list (string * value)) : string :=
                    match l with
                    | [] => "}"
                    | (k', y) :: l' =>
                        ", " ++ encode_basestring_ascii k' ++ ": "
                             ++ json_dumps y ++ tail l'
                    end) rest
      end
  end.

(** The two loops of [json_dumps], named. *)
Fixpoint dumps_items_tail (l : list value) : string :=
  match l with
  | [] => "]"
  | y :: l' => ", " ++ json_dumps y ++ dumps_items_tail l'
  end.

Fixpoint dumps_fields_tail (l : list (string * value)) : string :=
  match l with
  | [] => "}"
  | (k, y) :: l' =>
      ", " ++ encode_basestring_ascii k ++ ": " ++ json_dumps y
           ++ dumps_fields_tail l'
  end.

(** ** Reading JSON text

    A reader for the JSON grammar of RFC 8259 over this value type: it
    decides what text counts as JSON and which value the text stands
    for.  An object is read as its members in textual order.  Text with
    a fraction or an exponent, and [\u] escapes above U+00FF, denote
    values outside the model and are rejected. *)

Definition is_ws (c : ascii) : bool :=
  let n := N_of_ascii c in
  (n =? 32)%N || (n =? 9)%N || (n =? 10)%N || (n =? 13)%N.

Fixpoint skip_ws (s : string) : string :=
  match s with
  | String c rest => if is_ws c then skip_ws rest else s
  | EmptyString => EmptyString
  end.

Definition is_digit (c : ascii) : bool :=
  let n := N_of_ascii c in (48 <=? n)%N && (n <=? 57)%N.

Fixpoint read_digits (s : string) (acc : N) : N * string :=
  match s with
  | String c rest =>
      if is_digit c then read_digits rest (10 * acc + (N_of_ascii c - 48))%N
      else (acc, s)
  | EmptyString => (acc, EmptyString)
  end.

Definition head_is (p : ascii -> bool) (s : string) : bool :=
  match s with
  | String c _ => p c
  | EmptyString => false
  end.

Definition is_frac_or_exp (c : ascii) : bool :=
  let n := N_of_ascii c in (n =? 46)%N || (n =? 101)%N || (n =? 69)%N.

(** [int = zero / ( digit1-9 *DIGIT )], after the optional minus sign. *)
Definition read_nat (s : string) : option (N * string) :=
  match s with
  | String c rest =>
      if is_digit c then
        if (N_of_ascii c =? 48)%N && head_is is_digit rest then None
        else
          let '(n, rest') := read_digits s 0%N in
          if head_is is_frac_or_exp rest' then None else Some (n, rest')
      else None
  | EmptyString => None
  end.

Definition read_number (s : string) : option (Z * string) :=
  if head_is (fun c => (N_of_ascii c =? 45)%N) s then
    match s with
    | String _ rest =>
        match read_nat rest with
        | Some (n, rest') => Some (- Z.of_N n, rest')
        | None => None
        end
    | EmptyString => None
    end
  else
    match read_nat s with
    | Some (n, rest') => Some (Z.of_N n, rest')
    | None => None
    end.

Definition hex_value (c : ascii) : option N :=
  let n := N_of_ascii c in
  if (48 <=? n)%N && (n <=? 57)%N then Some (n - 48)%N
  else if (97 <=? n)%N && (n <=? 102)%N then Some (n - 87)%N
  else if (65 <=? n)%N && (n <=? 70)%N then Some (n - 55)%N
  else None.

Definition hex4 (a b c d : ascii) : option N :=
  match hex_value a, hex_value b, hex_value c, hex_value d with
  | Some x, Some y, Some z, Some w => Some (((x * 16 + y) * 16 + z) * 16 + w)%N
  | _, _, _, _ => None
  end.

(** The characters of a string after its opening quote, up to and
    including the closing quote. *)
Fixpoint read_string_body (s : string) : option (string * string) :=
  match s with
  | EmptyString => None
  | String c rest =>
      let n := N_of_ascii c in
      if (n =? 34)%N then Some (EmptyString, rest)
      else if (n =? 92)%N then
        match rest with
        | String e rest1 =>
            let push (x : ascii) (tl : option (string * string)) :=
              match tl with
              | Some (str, rest') => Some (String x str, rest')
              | None => None
              end in
            let m := N_of_ascii e in
            if (m =? 34)%N then push dquote (read_string_body rest1)
            else if (m =? 92)%N then push backslash (read_string_body rest1)
            else if (m =? 47)%N then push "/"%char (read_string_body rest1)
            else if (m =? 98)%N then push "008"%char (read_string_body rest1)
            else if (m =? 102)%N then push "012"%char (read_string_body rest1)
            else if (m =? 110)%N then push "010"%char (read_string_body rest1)
            else if (m =? 114)%N then push "013"%char (read_string_body rest1)
            else if (m =? 116)%N then push "009"%char (read_string_body rest1)
            else if (m =? 117)%N then
              match rest1 with
              | String h1 (String h2 (String h3 (String h4 rest2))) =>
                  match hex4 h1 h2 h3 h4 with
                  | Some cp =>
                      if (cp <? 256)%N
                      then push (ascii_of_N cp) (read_string_body rest2)
                      else None
                  | None => None
                  end
              | _ => None
              end
            else None
        | EmptyString => None
        end
      else if (n <? 32)%N then None
      else
        match read_string_body rest with
        | Some (str, rest') => Some (String c str, rest')
        | None => None
        end
  end.

Fixpoint drop_prefix (lit s : string) : option string :=
  match lit with
  | EmptyString => Some s
  | String a lit' =>
      match s with
      | String b s' => if Ascii.eqb a b then drop_prefix lit' s' else None
      | EmptyString => None
      end
  end.

Definition read_literal (lit : string) (v : value) (s : string)
  : option (value * string) :=
  match drop_prefix lit s with
  | Some rest => Some (v, rest)
  | None => None
  end.

(** What follows a value inside an array or an object. *)
Inductive separator := Comma | Close | Other.

Definition read_separator (close : N) (s : string) : separator * string :=
  match skip_ws s with
  | String c rest =>
      if (N_of_ascii c =? close)%N then (Close, rest)
      else if (N_of_ascii c =? 44)%N then (Comma, rest)
      else (Other, rest)
  | EmptyString => (Other, EmptyString)
  end.

Fixpoint read_value (fuel : nat) (s : string) : option (value * string) :=
  match fuel with
  | O => None
  | S fuel' =>
      match skip_ws s with
      | EmptyString => None
      | String c rest as s' =>
          let n := N_of_ascii c in
          if (n =? 110)%N then read_literal "null" VNone s'
          else if (n =? 116)%N then read_literal "true" (VBool true) s'
          else if (n =? 102)%N then read_literal "false" (VBool false) s'
          else if (n =? 34)%N then
            match read_string_body rest with
            | Some (str, r) => Some (VStr str, r)
            | None => None
            end
          else if (n =? 91)%N then          (* [ *)
            if head_is (fun c => (N_of_ascii c =? 93)%N) (skip_ws rest)
            then Some (VList [], snd (read_separator 93 rest))
            else
              match read_items fuel' rest with
              | Some (items, r) => Some (VList items, r)
              | None => None
              end
          else if (n =? 123)%N then         (* { *)
            if head_is (fun c => (N_of_ascii c =? 125)%N) (skip_ws rest)
            then Some (VDict [], snd (read_separator 125 rest))
            else
              match read_members fuel' rest with
              | Some (fields, r) => Some (VDict fields, r)
              | None => None
              end
          else
            match read_number s' with
            | Some (z, r) => Some (VInt z, r)
            | None => None
            end
      end
  end

(** [value *( "," value ) "]"] *)
with read_items (fuel : nat) (s : string) : option (list value * string) :=
  match fuel with
  | O => None
  | S fuel' =>
      match read_value fuel' s with
      | Some (v, r) =>
          match read_separator 93 r with
          | (Close, r') => Some ([v], r')
          | (Comma, r') =>
              match read_items fuel' r' with
              | Some (vs, r'') => Some (v :: vs, r'')
              | None => None
              end
          | (Other, _) => None
          end
      | None => None
      end
  end

(** [member *( "," member ) "}"], a member being [string ":" value] *)
with read_members (fuel : nat) (s : string)
  : option (list (string * value) * string) :=
  match fuel with
  | O => None
  | S fuel' =>
      match skip_ws s with
      | String c rest =>
          if (N_of_ascii c =? 34)%N then
            match read_string_body rest with
            | Some (k, r) =>
                if head_is (fun c => (N_of_ascii c =? 58)%N) (skip_ws r) then
                  match read_value fuel' (snd (read_separator 58 r)) with
                  | Some (v, r2) =>
                      match read_separator 125 r2 with
                      | (Close, r3) => Some ([(k, v)], r3)
                      | (Comma, r3) =>
                          match read_members fuel' r3 with
                          | Some (kvs, r4) => Some ((k, v) :: kvs, r4)
                          | None => None
                          end
                      | (Other, _) => None
                      end
                  | None => None
                  end
                else None
            | None => None
            end
          else None
      | EmptyString => None
      end
  end.

(** A JSON text is one value with optional white space around it.  No
    chain of nested calls is longer than twice the number of characters,
    which bounds the fuel. *)
Definition json_parse (s : string) : option value :=
  match read_value (2 * String.length s + 2) s with
  | Some (v, rest) =>
      match skip_ws rest with
      | EmptyString => Some v
      | _ => None
      end
  | None => None
  end.

(** *** What the proofs about the reader speak of *)

(** A text made of digits, and the number it spells. *)
Fixpoint all_digits (s : string) : bool :=
  match s with
  | EmptyString => true
  | String c rest => is_digit c && all_digits rest
  end.

Fixpoint horner (s : string) (acc : N) : N :=
  match s with
  | EmptyString => acc
  | String c rest => horner rest (10 * acc + (N_of_ascii c - 48))%N
  end.

(** Nothing after the number can be taken for a part of it. *)
Definition number_end (rest : string) : bool :=
  negb (head_is is_digit rest) && negb (head_is is_frac_or_exp rest).

(** The first character of an encoded value. *)
Definition value_start (c : ascii) : bool :=
  let n := N_of_ascii c in
  ((n =? 110) || (n =? 116) || (n =? 102) || (n =? 34) || (n =? 91)
   || (n =? 123) || (n =? 45))%N || is_digit c.

(** What the reader has to give back on the output of [json_dumps v],
    whatever follows it. *)
Definition reads_back (v : value) : Prop :=
  forall (fuel : nat) (rest : string),
    (2 * String.length (json_dumps v) <= fuel)%nat ->
    number_end rest = true ->
    read_value fuel (json_dumps v ++ rest) = Some (v, rest).

(** ** [datetime]

    A naive [datetime] (no [tzinfo]), as [datetime.utcnow()] returns it. *)

Record datetime : Type := mk_datetime {
  year : N; month : N; day : N;
  hour : N; minute : N; second : N; microsecond : N
}.

Definition is_leap (y : N) : bool :=
  ((y mod 4 =? 0) && (negb (y mod 100 =? 0) || (y mod 400 =? 0)))%N.

Definition days_in_month (y m : N) : N :=
  if (m =? 2)%N then (if is_leap y then 29 else 28)%N
  else if ((m =? 4) || (m =? 6) || (m =? 9) || (m =? 11))%N then 30%N
  else 31%N.

(** The range checks of the [datetime] constructor ([MINYEAR = 1],
    [MAXYEAR = 9999]). *)
Definition valid_datetime (d : datetime) : bool :=
  ((1 <=? year d) && (year d <=? 9999)
   && (1 <=? month d) && (month d <=? 12)
   && (1 <=? day d) && (day d <=? days_in_month (year d) (month d))
   && (hour d <? 24) && (minute d <? 60) && (second d <? 60)
   && (microsecond d <? 1000000))%N.

(** [_format_time] with [timespec='auto']: the fraction is printed only
    when the microsecond field is not zero. *)
Definition format_time (hh mm ss us : N) : string :=
  let seconds := fmt_0d 2 hh ++ ":" ++ fmt_0d 2 mm ++ ":" ++ fmt_0d 2 ss in
  if (us =? 0)%N then seconds else seconds ++ "." ++ fmt_0d 6 us.

(** [datetime.isoformat()] with the default separator ['T']; a naive
    datetime has no UTC offset, so nothing follows the time. *)
Definition isoformat (d : datetime) : string :=
  fmt_0d 4 (year d) ++ "-" ++ fmt_0d 2 (month d) ++ "-" ++ fmt_0d 2 (day d)
    ++ "T" ++ format_time (hour d) (minute d) (second d) (microsecond d).

(** *** The ISO-8601 layouts, written digit by digit

    Independent of the formatting code above: a field of fixed width is
    its decimal digits, most significant first. *)

Fixpoint fixed_digits (width : nat) (n : N) : string :=
  match width with
  | O => EmptyString
  | S w => String (digit_char ((n / 10 ^ N.of_nat w) mod 10)%N) (fixed_digits w n)
  end.

(** [YYYY-MM-DDTHH:MM:SS] *)
Definition iso8601_seconds (d : datetime) : string :=
  fixed_digits 4 (year d) ++ "-" ++ fixed_digits 2 (month d) ++ "-"
    ++ fixed_digits 2 (day d) ++ "T" ++ fixed_digits 2 (hour d) ++ ":"
    ++ fixed_digits 2 (minute d) ++ ":" ++ fixed_digits 2 (second d).

(** [YYYY-MM-DDTHH:MM:SS.ffffff] *)
Definition iso8601_microseconds (d : datetime) : string :=
  iso8601_seconds d ++ "." ++ fixed_digits 6 (microsecond d).

(** ** The objects the SDK returns

    What [boto3]'s resource layer builds from a DynamoDB response: the
    JSON kinds for strings, booleans, null, lists and maps, the integers
    of the response counters, and the objects that are not JSON: a
    [Decimal] for every number attribute, a [Binary] for binary data and
    a [set] for the set types. *)

#[warnings="-register-all"]
Inductive pyobj : Type :=
| PNone
| PBool (b : bool)
| PInt (n : Z)
| PStr (s : string)
| PList (items : list pyobj)
| PDict (fields : list (string * pyobj))
| PDecimal (coefficient exponent : Z)   (* coefficient * 10 ^ exponent *)
| PBinary (data : string)
| PSet (elements : list pyobj).

Section pyobj_induction.
Variable P : pyobj -> Prop.
Hypothesis HNone : P PNone.
Hypothesis HBool : forall b, P (PBool b).
Hypothesis HInt : forall n, P (PInt n).
Hypothesis HStr : forall s, P (PStr s).
Hypothesis HList : forall items, Forall P items -> P (PList items).
Hypothesis HDict :
  forall fields, Forall (fun kv => P (snd kv)) fields -> P (PDict fields).
Hypothesis HDecimal : forall c e, P (PDecimal c e).
Hypothesis HBinary : forall data, P (PBinary data).
Hypothesis HSet : forall elements, P (PSet elements).

Fixpoint pyobj_nested_ind (o : pyobj) : P o :=
  match o with
  | PNone => HNone
  | PBool b => HBool b
  | PInt n => HInt n
  | PStr s => HStr s
  | PList items =>
      HList items
        ((fix go (l : list pyobj) : Forall P l :=
            match l with
            | [] => @List.Forall_nil _ P
            | x :: r => @List.Forall_cons _ P x r (pyobj_nested_ind x) (go r)
            end) items)
  | PDict fields =>
      HDict fields
        ((fix go (l : list (string * pyobj))
            : Forall (fun kv => P (snd kv)) l :=
            match l with
            | [] => @List.Forall_nil _ _
            | kv :: r =>
                @List.Forall_cons _ (fun kv => P (snd kv)) kv r
                  (pyobj_nested_ind (snd kv)) (go r)
            end) fields)
  | PDecimal c e => HDecimal c e
  | PBinary data => HBinary data
  | PSet elements => HSet elements
  end.
End pyobj_induction.

Fixpoint obj_lookup (key : string) (fields : list (string * pyobj))
  : option pyobj :=
  match fields with
  | [] => None
  | (k, o) :: rest => if String.eqb k key then Some o else obj_lookup key rest
  end.

(** [o.get(key, default)] on these objects. *)
Definition obj_get (o : pyobj) (key : string) (default : pyobj)
  : result pyobj :=
  match o with
  | PDict fields =>
      Ok (match obj_lookup key fields with
          | Some x => x
          | None => default
          end)
  | _ => Raise AttributeError
  end.

(** [json.dumps] on these objects, with no [default=]: the encoder knows
    the JSON kinds and raises [TypeError] at a [Decimal], a [Binary] or a
    [set], wherever in the object it meets one. *)
Fixpoint json_dumps_obj (o : pyobj) : result string :=
  match o with
  | PNone => Ok "null"
  | PBool true => Ok "true"
  | PBool false => Ok "false"
  | PInt n => Ok (int_repr n)
  | PStr s => Ok (encode_basestring_ascii s)
  | PList items =>
      match items with
      | [] => Ok "[]"
      | x :: rest =>
          rbind (json_dumps_obj x) (fun sx =>
          rbind ((fix tail (l : list pyobj) : result string :=
                    match l with
                    | [] => Ok "]"
                    | y :: l' =>
                        rbind (json_dumps_obj y) (fun sy =>
                        rbind (tail l') (fun st =>
                        Ok (", " ++ sy ++ st)))
                    end) rest) (fun st =>
          Ok ("[" ++ sx ++ st)))
      end
  | PDict fields =>
      match fields with
      | [] => Ok "{}"
      | (k, x) :: rest =>
          rbind (json_dumps_obj x) (fun sx =>
          rbind ((fix tail (l : list (string * pyobj)) : result string :=
                    match l with
                    | [] => Ok "}"
                    | (k', y) :: l' =>
                        rbind (json_dumps_obj y) (fun sy =>
                        rbind (tail l') (fun st =>
                        Ok (", " ++ encode_basestring_ascii k' ++ ": "
                                 ++ sy ++ st)))
                    end) rest) (fun st =>
          Ok ("{" ++ encode_basestring_ascii k ++ ": " ++ sx ++ st)))
      end
  | PDecimal _ _ | PBinary _ | PSet _ => Raise TypeError
  end.

(** The two loops of [json_dumps_obj], named. *)
Fixpoint dumps_obj_items_tail (l : list pyobj) : result string :=
  match l with
  | [] => Ok "]"
  | y :: l' =>
      rbind (json_dumps_obj y) (fun sy =>
      rbind (dumps_obj_items_tail l') (fun st =>
      Ok (", " ++ sy ++ st)))
  end.

Fixpoint dumps_obj_fields_tail (l : list (string * pyobj)) : result string :=
  match l with
  | [] => Ok "}"
  | (k, y) :: l' =>
      rbind (json_dumps_obj y) (fun sy =>
      rbind (dumps_obj_fields_tail l') (fun st =>
      Ok (", " ++ encode_basestring_ascii k ++ ": " ++ sy ++ st)))
  end.

(** The JSON value an object is, when it is made of the JSON kinds
    only. *)
Fixpoint to_value (o : pyobj) : option value :=
  match o with
  | PNone => Some VNone
  | PBool b => Some (VBool b)
  | PInt n => Some (VInt n)
  | PStr s => Some (VStr s)
  | PList items =>
      match (fix go (l : list pyobj) : option (list value) :=
               match l with
               | [] => Some []
               | x :: r =>
                   match to_value x, go r with
                   | Some v, Some vs => Some (v :: vs)
                   | _, _ => None
                   end
               end) items with
      | Some vs => Some (VList vs)
      | None => None
      end
  | PDict fields =>
      match (fix go (l : list (string * pyobj))
               : option (list (string * value)) :=
               match l with
               | [] => Some []
               | (k, x) :: r =>
                   match to_value x, go r with
                   | Some v, Some kvs => Some ((k, v) :: kvs)
                   | _, _ => None
                   end
               end) fields with
      | Some kvs => Some (VDict kvs)
      | None => None
      end
  | PDecimal _ _ | PBinary _ | PSet _ => None
  end.

Fixpoint to_values (l : list pyobj) : option (list value) :=
  match l with
  | [] => Some []
  | x :: r =>
      match to_value x, to_values r with
      | Some v, Some vs => Some (v :: vs)
      | _, _ => None
      end
  end.

Fixpoint to_fields (l : list (string * pyobj))
  : option (list (string * value)) :=
  match l with
  | [] => Some []
  | (k, x) :: r =>
      match to_value x, to_fields r with
      | Some v, Some kvs => Some ((k, v) :: kvs)
      | _, _ => None
      end
  end.

(** What [json_dumps_obj] does to an object: the text of the JSON value
    it is, or [TypeError]. *)
Definition dumps_as_value (o : pyobj) : Prop :=
  json_dumps_obj o
  = match to_value o with
    | Some v => Ok (json_dumps v)
    | None => Raise TypeError
    end.

(** ** The world a handler runs in *)

(** [dynamodb.Table(name)]: a handle on the table of that name; building
    it contacts nothing. *)
Inductive table_resource : Type := Table (name : string).

(** The table capability: the two calls the handlers make.  A call either
    fails with an exception, leaving the tables as they were, or
    succeeds; [scan] only reads, and its response is an object of the
    SDK. *)
Class TableCapability (DB : Type) : Type := {
  put_item : table_resource -> value -> DB -> result DB;
  scan : table_resource -> Z -> DB -> result pyobj
}.

(** The calls sent to the table service, in order. *)
Inductive request : Type :=
| PutItem (table : table_resource) (item : value)
| Scan (table : table_resource) (limit : Z).

Record World (DB : Type) : Type := mk_World {
  clock : datetime;           (* what [datetime.utcnow()] reads *)
  stdout : list string;       (* the lines printed so far *)
  db : DB;                    (* the tables *)
  requests : list request     (* the calls made so far *)
}.
Arguments mk_World {DB}.
Arguments clock {DB}.
Arguments stdout {DB}.
Arguments db {DB}.
Arguments requests {DB}.

(** A computation reads and changes the world and returns or raises; what
    it did before raising stays done. *)
Definition M (DB A : Type) : Type := World DB -> result A * World DB.

Definition ret {DB A} (a : A) : M DB A := fun w => (Ok a, w).

Definition bind {DB A B} (m : M DB A) (k : A -> M DB B) : M DB B :=
  fun w =>
    match m w with
    | (Ok a, w') => k a w'
    | (Raise e, w') => (Raise e, w')
    end.

Definition lift {DB A} (r : result A) : M DB A := fun w => (r, w).

Declare Scope py_scope.
Delimit Scope py_scope with py.
Notation "x <- m ;; k" := (bind m (fun x => k))
  (at level 100, m at next level, right associativity) : py_scope.
Notation "m ;;; k" := (bind m (fun _ => k))
  (at level 100, right associativity) : py_scope.
Notation "x <~ r ;; k" := (rbind r (fun x => k))
  (at level 100, r at next level, right associativity) : py_scope.

Section Primitives.
Context {DB : Type} `{TableCapability DB}.

(** [print(a, b)]: the arguments separated by a space, on one line. *)
Definition print (a b : string) : M DB unit :=
  fun w =>
    (Ok tt, mk_World (clock w) (List.app (stdout w) [a ++ " " ++ b])
              (db w) (requests w)).

Definition datetime_utcnow : M DB datetime :=
  fun w => (Ok (clock w), w).

(** [table.put_item(Item=item)] *)
Definition table_put_item (table : table_resource) (item : value)
  : M DB unit :=
  fun w =>
    let sent := (requests w ++ [PutItem table item])%list in
    match put_item table item (db w) with
    | Ok db' => (Ok tt, mk_World (clock w) (stdout w) db' sent)
    | Raise e => (Raise e, mk_World (clock w) (stdout w) (db w) sent)
    end.

(** [table.scan(Limit=limit)] *)
Definition table_scan (table : table_resource) (limit : Z) : M DB pyobj :=
  fun w =>
    let w' := mk_World (clock w) (stdout w) (db w)
                (requests w ++ [Scan table limit])%list in
    match scan table limit (db w) with
    | Ok response => (Ok response, w')
    | Raise e => (Raise e, w')
    end.
End Primitives.

(** [os.environ] *)
Abbreviation environment := (gmap string string).

(** ** src/Lambda/lambda_function.py *)
Module Lambda.
Section Lambda.
Context {DB : Type} `{TableCapability DB}.
Variable LambdaContext : Type.

(** [table_name = os.environ["DDB_TABLE"]] *)
Definition table_name (environ : environment) : result string :=
  match environ !! "DDB_TABLE" with
  | Some name => Ok name
  | None => Raise (KeyError (VStr "DDB_TABLE"))
  end.

(** [table = dynamodb.Table(table_name)]: the value the module body
    leaves in [table], when the body runs to its end. *)
Definition table (environ : environment) : result table_resource :=
  (name <~ table_name environ ;; Ok (Table name))%py.

(** [event.get("Records", [{}])[0].get("Sns", {}).get("Message", "Test alert")] *)
Definition message_of (event : value) : result value :=
  (records <~ py_get event "Records" (VList [VDict []]) ;;
   first <~ py_getitem records 0 ;;
   sns <~ py_get first "Sns" (VDict []) ;;
   py_get sns "Message" (VStr "Test alert"))%py.

Definition lambda_handler (table : table_resource)
    (event : value) (context : LambdaContext) : M DB value :=
  (print "Received event:" (json_dumps event) ;;;
   now <- datetime_utcnow ;;
   let timestamp := isoformat now in
   message <- lift (message_of event) ;;
   table_put_item table
     (VDict [("id", VStr timestamp); ("message", message)]) ;;;
   ret (VDict [("statusCode", VInt 200); ("body", VStr "Log stored")]))%py.
End Lambda.
End Lambda.

(** ** src/API_Integration/api_lambda.py *)
Module API_Integration.
Section API_Integration.
Context {DB : Type} `{TableCapability DB}.
Variable LambdaContext : Type.

(** [table_name = os.environ.get("DDB_TABLE", "CostTrackerLogs")] *)
Definition table_name (environ : environment) : string :=
  match environ !! "DDB_TABLE" with
  | Some name => name
  | None => "CostTrackerLogs"
  end.

Definition table (environ : environment) : result table_resource :=
  Ok (Table (table_name environ)).

Definition lambda_handler (table : table_resource)
    (event : value) (context : LambdaContext) : M DB value :=
  (response <- table_scan table 10 ;;
   items <- lift (obj_get response "Items" (PList [])) ;;
   body <- lift (json_dumps_obj items) ;;
   ret (VDict [("statusCode", VInt 200);
               ("headers",
                VDict [("Content-Type", VStr "application/json")]);
               ("body", VStr body)]))%py.
End API_Integration.
End API_Integration.

(** ** The host runtime

    A cold start runs the module body once; only a module whose body ran
    to its end has a handler to call. *)
Definition invoke {DB G C : Type} (module_body : result G)
    (handler : G -> value -> C -> M DB value)
    (event : value) (context : C) : M DB value :=
  fun w =>
    match module_body with
    | Ok g => handler g event context w
    | Raise e => (Raise e, w)
    end.

(** ** An in-memory table service

    Tables by name, each the list of its items as a scan returns them.
    [put_item] goes through the SDK's serializer: an integer becomes a
    DynamoDB number, which comes back as a [Decimal], and an integer of
    more than 38 digits is refused with [decimal.Rounded] before anything
    is sent.  It then replaces the item with the same ["id"] or appends.
    [scan] returns the first [limit] items.  A call on a table that does
    not exist fails, and so does a [put_item] without a string ["id"] and
    a [scan] whose limit is below one. *)
Module MemTable.
(** The object a stored value comes back as. *)
Fixpoint as_returned (v : value) : pyobj :=
  match v with
  | VNone => PNone
  | VBool b => PBool b
  | VInt n => PDecimal n 0
  | VStr s => PStr s
  | VList items =>
      PList ((fix go (l : list value) : list pyobj :=
                match l with
                | [] => []
                | x :: r => as_returned x :: go r
                end) items)
  | VDict fields =>
      PDict ((fix go (l : list (string * value)) : list (string * pyobj) :=
                match l with
                | [] => []
                | (k, x) :: r => (k, as_returned x) :: go r
                end) fields)
  end.

(** Every integer inside fits the 38 digits of a DynamoDB number. *)
Fixpoint storable (v : value) : bool :=
  match v with
  | VInt n => Z.abs n <? 10 ^ 38
  | VList items =>
      (fix go (l : list value) : bool :=
         match l with
         | [] => true
         | x :: r => storable x && go r
         end) items
  | VDict fields =>
      (fix go (l : list (string * value)) : bool :=
         match l with
         | [] => true
         | (_, x) :: r => storable x && go r
         end) fields
  | VNone | VBool _ | VStr _ => true
  end.

Definition same_id (id : string) (item : pyobj) : bool :=
  match obj_get item "id" PNone with
  | Ok (PStr other) => String.eqb id other
  | _ => false
  end.

Fixpoint upsert (id : string) (item : pyobj) (items : list pyobj)
  : list pyobj :=
  match items with
  | [] => [item]
  | x :: rest =>
      if same_id id x then item :: rest else x :: upsert id item rest
  end.

Definition mem_put_item (t : table_resource) (item : value)
    (tables : gmap string (list pyobj)) : result (gmap string (list pyobj)) :=
  let 'Table name := t in
  if storable item then
    match tables !! name with
    | None => Raise (ClientError "ResourceNotFoundException")
    | Some items =>
        match py_get item "id" VNone with
        | Ok (VStr id) =>
            Ok (<[name := upsert id (as_returned item) items]> tables)
        | _ => Raise (ClientError "ValidationException")
        end
    end
  else Raise Rounded.

Definition mem_scan (t : table_resource) (limit : Z)
    (tables : gmap string (list pyobj)) : result pyobj :=
  let 'Table name := t in
  match tables !! name with
  | None => Raise (ClientError "ResourceNotFoundException")
  | Some items =>
      if limit <? 1 then Raise (ClientError "ValidationException")
      else
        let page := firstn (Z.to_nat limit) items in
        Ok (PDict [("Items", PList page);
                   ("Count", PInt (Z.of_nat (List.length page)))])
  end.

#[global] Instance capability : TableCapability (gmap string (list pyobj)) :=
  {| put_item := mem_put_item; scan := mem_scan |}.
End MemTable.

(** ** Vocabulary of the statements *)

(** The record [{ id: timestamp, message }]. *)
Definition record_of (timestamp : string) (message : value) : value :=
  VDict [("id", VStr timestamp); ("message", message)].

(** [{ statusCode: 200, body: "Log stored" }] *)
Definition log_stored : value :=
  VDict [("statusCode", VInt 200); ("body", VStr "Log stored")].

(** [{ statusCode: 200, headers: {"Content-Type": "application/json"},
       body }] *)
Definition json_response (body : string) : value :=
  VDict [("statusCode", VInt 200);
         ("headers", VDict [("Content-Type", VStr "application/json")]);
         ("body", VStr body)].

(** The line the notifier prints first. *)
Definition received_line (event : value) : string :=
  "Received event:" ++ " " ++ json_dumps event.

(** The value at [Records[0].Sns.Message]: [Records] a non-empty list,
    its first element an object holding an object under [Sns], that one
    holding a [Message]. *)
Definition message_path (event : value) : option value :=
  match event with
  | VDict fields =>
      match dict_lookup "Records" fields with
      | Some (VList (VDict first :: _)) =>
          match dict_lookup "Sns" first with
          | Some (VDict sns) => dict_lookup "Message" sns
          | _ => None
          end
      | _ => None
      end
  | _ => None
  end.

(** The path is present in the event, with value [m]. *)
Definition has_message (event : value) (m : value) : Prop :=
  message_path event = Some m.

(** The ways the path can be missing from an event made of objects: no
    [Records], no [Sns] in the first record, no [Message] in [Sns]. *)
Inductive lacks_message : value -> Prop :=
| lacks_Records fields :
    dict_lookup "Records" fields = None ->
    lacks_message (VDict fields)
| lacks_Sns fields first others :
    dict_lookup "Records" fields = Some (VList (VDict first :: others)) ->
    dict_lookup "Sns" first = None ->
    lacks_message (VDict fields)
| lacks_Message fields first others sns :
    dict_lookup "Records" fields = Some (VList (VDict first :: others)) ->
    dict_lookup "Sns" first = Some (VDict sns) ->
    dict_lookup "Message" sns = None ->
    lacks_message (VDict fields).

(** The events on which every step of the lookup finds an object to look
    into: an object whose [Records], if any, is a list starting with an
    object whose [Sns], if any, is an object. *)
Definition lookup_shaped (event : value) : bool :=
  match event with
  | VDict fields =>
      match dict_lookup "Records" fields with
      | None => true
      | Some (VList (VDict first :: _)) =>
          match dict_lookup "Sns" first with
          | None | Some (VDict _) => true
          | Some _ => false
          end
      | Some _ => false
      end
  | _ => false
  end.

(** The records of a scan response: the list under ["Items"], none when
    the key is missing. *)
Definition scanned_items (response : pyobj) : option (list pyobj) :=
  match response with
  | PDict fields =>
      match obj_lookup "Items" fields with
      | None => Some []
      | Some (PList items) => Some items
      | Some _ => None
      end
  | _ => None
  end.

(** A world over the in-memory service: one empty table ["logs"], the
    clock on a whole second. *)
Definition mem_world : World (gmap string (list pyobj)) :=
  mk_World (mk_datetime 2024 5 17 9 3 7 0) [] {[ "logs" := [] ]} [].

(** The same with the clock 123 microseconds later. *)
Definition mem_world_us : World (gmap string (list pyobj)) :=
  mk_World (mk_datetime 2024 5 17 9 3 7 123) [] {[ "logs" := [] ]} [].

(** Scenario A of the specification. *)
Definition cpu_alarm_event : value :=
  VDict [("Records",
          VList [VDict [("Sns",
                         VDict [("Message", VStr "CPU alarm triggered")])]])].

(** The worlds a run can end in. *)
Section Outcomes.
Context {DB : Type}.

(** The event has been printed, nothing else has happened. *)
Definition printed (event : value) (w : World DB) : World DB :=
  mk_World (clock w) (List.app (stdout w) [received_line event])
    (db w) (requests w).

(** The event has been printed and the record sent; the tables are
    [tables]. *)
Definition after_put (table : table_resource) (event m : value)
    (tables : DB) (w : World DB) : World DB :=
  mk_World (clock w) (List.app (stdout w) [received_line event]) tables
    (List.app (requests w)
       [PutItem table (record_of (isoformat (clock w)) m)]).

(** The one [scan] has been sent. *)
Definition after_scan (table : table_resource) (w : World DB) : World DB :=
  mk_World (clock w) (stdout w) (db w)
    (List.app (requests w) [Scan table 10]).
End Outcomes.

(** Three records in the table, as in scenario C. *)
Definition three_records : list value :=
  [record_of "2024-05-17T09:03:07" (VStr "Test alert");
   record_of "2024-05-17T09:03:08.000123" (VStr "CPU alarm triggered");
   record_of "2024-05-17T09:04:00.5" (VStr EmptyString)].

(** The same records as a scan returns them. *)
Definition three_returned : list pyobj :=
  List.map MemTable.as_returned three_records.

Definition world_of_three : World (gmap string (list pyobj)) :=
  mk_World (mk_datetime 2024 5 17 9 5 0 0) [] {[ "logs" := three_returned ]} [].

(** A message that is an empty list, neither a string nor non-empty
    text. *)
Definition odd_event : value :=
  VDict [("Records", VList [VDict [("Sns", VDict [("Message", VList [])])]])].


(** ** Vocabulary of the further properties *)

(** The characters [' '..'~']. *)
Definition printable (c : ascii) : bool :=
  let n := N_of_ascii c in (32 <=? n)%N && (n <=? 126)%N.

Fixpoint all_printable (s : string) : bool :=
  match s with
  | EmptyString => true
  | String c rest => printable c && all_printable rest
  end.

(** The table a request is sent to. *)
Definition request_table (r : request) : table_resource :=
  match r with
  | PutItem table _ => table
  | Scan table _ => table
  end.

(** The exceptions the lookup of the message can raise. *)
Definition lookup_error (e : exn) : Prop :=
  e = AttributeError \/ e = IndexError \/ e = TypeError
  \/ e = KeyError (VInt 0).

(** What [records[0]] raises, or what [records[0].get] raises, when
    [records] is not a list. *)
Definition non_list_error (records : value) : exn :=
  match records with
  | VNone | VBool _ | VInt _ => TypeError
  | VDict _ => KeyError (VInt 0)
  | VStr EmptyString => IndexError
  | VStr (String _ _) | VList _ => AttributeError
  end.

Definition is_list (v : value) : bool :=
  match v with
  | VList _ => true
  | _ => false
  end.

(** Two SNS records in one event. *)
Definition batch_event : value :=
  VDict [("Records",
          VList [VDict [("Sns", VDict [("Message", VStr "first")])];
                 VDict [("Sns", VDict [("Message", VStr "second")])]])].

Definition single_event : value :=
  VDict [("Records",
          VList [VDict [("Sns", VDict [("Message", VStr "first")])]])].

(** An event whose first record has no [Sns]. *)
Definition bare_record_event : value :=
  VDict [("Records", VList [VDict [("EventSource", VStr "aws:sns")]])].

(** The environment of a deployment whose table is ["logs"]. *)
Definition logs_environ : environment := {[ "DDB_TABLE" := "logs" ]}.

(** A notification whose message is the number 5. *)
Definition number_event : value :=
  VDict [("Records", VList [VDict [("Sns", VDict [("Message", VInt 5)])]])].
(** * Proofs *)

(** ** Strings *)

#[local] Arguments String.append !s1 s2 : simpl nomatch.

Lemma str_app_assoc (a b c : string) : (a ++ b) ++ c = a ++ b ++ c.
Proof. induction a as [|x a IH]; simpl; congruence. Qed.

Lemma str_app_nil_r (a : string) : a ++ EmptyString = a.
Proof. induction a as [|x a IH]; simpl; congruence. Qed.

Lemma str_length_app (a b : string) :
  String.length (a ++ b) = (String.length a + String.length b)%nat.
Proof. induction a as [|x a IH]; simpl; congruence. Qed.

Lemma zeros_length k : String.length (zeros k) = k.
Proof. induction k; simpl; congruence. Qed.

(** ** Decimal digits *)

Lemma pos_size_nat_gt (p : positive) :
  (N.pos p < 2 ^ N.of_nat (Pos.size_nat p))%N.
Proof.
  induction p as [p IH|p IH|]; cbn [Pos.size_nat];
    rewrite ?Nat2N.inj_succ, ?N.pow_succ_r'; lia.
Qed.

Lemma N_size_nat_gt (n : N) : (n < 2 ^ N.of_nat (S (N.size_nat n)))%N.
Proof.
  rewrite Nat2N.inj_succ, N.pow_succ_r'.
  destruct n as [|p]; cbn [N.size_nat].
  - cbn. lia.
  - pose proof (pos_size_nat_gt p). lia.
Qed.

Lemma digits_fuel_enough (f1 : nat) :
  forall (f2 : nat) (n : N),
    (1 <= f1)%nat -> (1 <= f2)%nat ->
    (n < 2 ^ N.of_nat f1)%N -> (n < 2 ^ N.of_nat f2)%N ->
    digits_fuel f1 n = digits_fuel f2 n.
Proof.
  induction f1 as [|f1 IH]; intros f2 n H1 H2 B1 B2; [lia|].
  destruct f2 as [|f2]; [lia|].
  cbn [digits_fuel]. destruct (N.ltb_spec n 10) as [Hlt|Hge]; [reflexivity|].
  rewrite Nat2N.inj_succ, N.pow_succ_r' in B1, B2.
  assert (F1 : (1 <= f1)%nat).
  { destruct f1; [cbn in B1; lia | lia]. }
  assert (F2 : (1 <= f2)%nat).
  { destruct f2; [cbn in B2; lia | lia]. }
  f_equal. apply IH; try assumption.
  - apply N.Div0.div_lt_upper_bound; lia.
  - apply N.Div0.div_lt_upper_bound; lia.
Qed.

(** The defining equation of the decimal text. *)
Lemma N_repr_eq (n : N) :
  N_repr n =
    if (n <? 10)%N then String (digit_char n) EmptyString
    else N_repr (n / 10) ++ String (digit_char (n mod 10)) EmptyString.
Proof.
  unfold N_repr at 1. cbn [digits_fuel].
  destruct (N.ltb_spec n 10) as [Hlt|Hge]; [reflexivity|].
  f_equal. unfold N_repr.
  pose proof (N_size_nat_gt n) as Hn.
  pose proof (N_size_nat_gt (n / 10)) as Hq.
  rewrite Nat2N.inj_succ, N.pow_succ_r' in Hn.
  apply digits_fuel_enough; try lia.
  - destruct n as [|p]; [lia|]. destruct p; cbn; lia.
  - apply N.Div0.div_lt_upper_bound; lia.
Qed.

(** Induction on a number along its decimal digits. *)
Lemma N_digit_ind (P : N -> Prop) :
  (forall n, (n < 10)%N -> P n) ->
  (forall n, (10 <= n)%N -> P (n / 10)%N -> P n) ->
  forall n, P n.
Proof.
  intros Hsmall Hstep n.
  induction n as [n IH] using (well_founded_induction N.lt_wf_0).
  destruct (N.ltb_spec n 10) as [Hlt|Hge].
  - now apply Hsmall.
  - apply Hstep; [assumption|]. apply IH.
    apply N.Div0.div_lt_upper_bound; lia.
Qed.

(** ** Character codes *)

Ltac bool_hyps :=
  repeat match goal with
  | H : (_ && _)%bool = true |- _ => apply andb_true_iff in H; destruct H
  | H : (_ || _)%bool = false |- _ => apply orb_false_iff in H; destruct H
  | H : (_ <=? _)%N = true |- _ => apply N.leb_le in H
  | H : (_ <=? _)%N = false |- _ => apply N.leb_gt in H
  | H : (_ <? _)%N = true |- _ => apply N.ltb_lt in H
  | H : (_ <? _)%N = false |- _ => apply N.ltb_ge in H
  | H : (_ =? _)%N = true |- _ => apply N.eqb_eq in H
  | H : (_ =? _)%N = false |- _ => apply N.eqb_neq in H
  end.

(** Decide the comparisons of a goal on character codes. *)
Ltac codes :=
  bool_hyps;
  repeat match goal with
  | |- context [(?a =? ?b)%N] => destruct (N.eqb_spec a b); try lia
  | |- context [(?a <=? ?b)%N] => destruct (N.leb_spec a b); try lia
  | |- context [(?a <? ?b)%N] => destruct (N.ltb_spec a b); try lia
  end;
  try reflexivity; try discriminate; try lia.

Lemma digit_char_code (d : N) :
  (d < 10)%N -> N_of_ascii (digit_char d) = (48 + d)%N.
Proof. intros Hd. unfold digit_char. apply N_ascii_embedding. lia. Qed.

Lemma digit_char_is_digit (d : N) :
  (d < 10)%N -> is_digit (digit_char d) = true.
Proof.
  intros Hd. unfold is_digit. rewrite digit_char_code by assumption. codes.
Qed.

(** ** Reading back the decimal text *)



Lemma all_digits_app (a b : string) :
  all_digits (a ++ b) = all_digits a && all_digits b.
Proof.
  induction a as [|c a IH]; simpl; [reflexivity|].
  now rewrite IH, andb_assoc.
Qed.

Lemma horner_app (a b : string) (acc : N) :
  horner (a ++ b) acc = horner b (horner a acc).
Proof. revert acc. induction a as [|c a IH]; intros acc; simpl; auto. Qed.

Lemma read_digits_stop (rest : string) (acc : N) :
  head_is is_digit rest = false -> read_digits rest acc = (acc, rest).
Proof. destruct rest as [|c r]; simpl; [reflexivity|]. now intros ->. Qed.

Lemma read_digits_app (s rest : string) (acc : N) :
  all_digits s = true -> head_is is_digit rest = false ->
  read_digits (s ++ rest) acc = (horner s acc, rest).
Proof.
  revert acc. induction s as [|c s IH]; intros acc Hs Hrest; simpl.
  - now apply read_digits_stop.
  - simpl in Hs. apply andb_true_iff in Hs as [Hc Hs].
    rewrite Hc. now apply IH.
Qed.

Lemma N_repr_all_digits (n : N) : all_digits (N_repr n) = true.
Proof.
  induction n as [n Hn|n Hn IH] using N_digit_ind; rewrite N_repr_eq.
  - destruct (N.ltb_spec n 10); [|lia]. simpl.
    now rewrite digit_char_is_digit.
  - destruct (N.ltb_spec n 10); [lia|].
    rewrite all_digits_app, IH. simpl.
    rewrite digit_char_is_digit; [reflexivity|].
    apply N.mod_lt. lia.
Qed.

Lemma horner_N_repr (n : N) : horner (N_repr n) 0 = n.
Proof.
  induction n as [n Hn|n Hn IH] using N_digit_ind; rewrite N_repr_eq.
  - destruct (N.ltb_spec n 10); [|lia]. simpl.
    rewrite digit_char_code by assumption. lia.
  - destruct (N.ltb_spec n 10); [lia|].
    rewrite horner_app, IH. simpl.
    rewrite digit_char_code by (apply N.mod_lt; lia).
    pose proof (N.div_mod n 10 ltac:(lia)) as E. clear IH.
    set (q := (n / 10)%N) in *. set (r := (n mod 10)%N) in *.
    clearbody q r. lia.
Qed.

(** The text starts with a digit, and with [0] only when it is ["0"]. *)
Lemma N_repr_head (n : N) :
  exists c r, N_repr n = String c r /\ is_digit c = true
              /\ (N_of_ascii c = 48%N -> r = EmptyString).
Proof.
  induction n as [n Hn|n Hn IH] using N_digit_ind.
  - rewrite N_repr_eq. destruct (N.ltb_spec n 10); [|lia].
    exists (digit_char n), EmptyString. auto using digit_char_is_digit.
  - destruct IH as (c & r & Heq & Hc & Hzero).
    exists c, (r ++ String (digit_char (n mod 10)) EmptyString).
    rewrite N_repr_eq. destruct (N.ltb_spec n 10); [lia|].
    rewrite Heq. simpl. repeat split; [assumption|].
    intros Hc0. exfalso.
    pose proof (horner_N_repr (n / 10)) as Hval.
    rewrite Heq, (Hzero Hc0) in Hval. simpl in Hval. rewrite Hc0 in Hval.
    assert (n / 10 = 0)%N as Hq by lia.
    apply N.div_small_iff in Hq; lia.
Qed.


Lemma read_nat_N_repr (n : N) (rest : string) :
  number_end rest = true ->
  read_nat (N_repr n ++ rest) = Some (n, rest).
Proof.
  unfold number_end. intros Hend.
  apply andb_true_iff in Hend as [Hd Hf].
  apply negb_true_iff in Hd, Hf.
  destruct (N_repr_head n) as (c & r & Heq & Hc & Hzero).
  rewrite Heq. cbn [append]. unfold read_nat. rewrite Hc.
  assert (Hlead : (N_of_ascii c =? 48)%N && head_is is_digit (r ++ rest) = false).
  { destruct (N.eqb_spec (N_of_ascii c) 48) as [E|E]; [|reflexivity].
    rewrite (Hzero E). simpl. assumption. }
  rewrite Hlead.
  change (String c (r ++ rest)) with (String c r ++ rest). rewrite <- Heq.
  rewrite read_digits_app by auto using N_repr_all_digits.
  now rewrite Hf, horner_N_repr.
Qed.

Lemma read_number_int_repr (z : Z) (rest : string) :
  number_end rest = true ->
  read_number (int_repr z ++ rest) = Some (z, rest).
Proof.
  intros Hend. unfold int_repr, read_number.
  destruct (Z.ltb_spec z 0) as [Hneg|Hpos].
  - cbn [append head_is]. change (N_of_ascii "-" =? 45)%N with true. cbn iota.
    rewrite read_nat_N_repr by assumption.
    f_equal. f_equal. lia.
  - destruct (N_repr_head (Z.to_N z)) as (c & r & Heq & Hc & _).
    rewrite Heq. cbn [append head_is].
    unfold is_digit in Hc.
    replace (N_of_ascii c =? 45)%N with false by codes.
    change (String c (r ++ rest)) with (String c r ++ rest). rewrite <- Heq.
    rewrite read_nat_N_repr by assumption.
    f_equal. f_equal. lia.
Qed.

(** ** Reading back an encoded string *)

Lemma read_escape_char (c : ascii) (tail : string) :
  read_string_body (escape_char c ++ tail) =
    match read_string_body tail with
    | Some (str, rest) => Some (String c str, rest)
    | None => None
    end.
Proof.
  destruct c as [b0 b1 b2 b3 b4 b5 b6 b7].
  destruct b0, b1, b2, b3, b4, b5, b6, b7; reflexivity.
Qed.

Lemma read_escape_chars (s rest : string) :
  read_string_body (escape_chars s ++ String dquote rest) = Some (s, rest).
Proof.
  induction s as [|c s IH].
  - reflexivity.
  - cbn [escape_chars]. rewrite str_app_assoc, read_escape_char.
    now rewrite IH.
Qed.

Lemma encode_basestring_ascii_app (s rest : string) :
  encode_basestring_ascii s ++ rest
  = String dquote (escape_chars s ++ String dquote rest).
Proof.
  unfold encode_basestring_ascii. cbn [append].
  now rewrite str_app_assoc.
Qed.

Lemma encode_basestring_ascii_length (s : string) :
  (2 <= String.length (encode_basestring_ascii s))%nat.
Proof.
  unfold encode_basestring_ascii. cbn [String.length].
  rewrite str_length_app. cbn [String.length]. lia.
Qed.

(** ** Reading back the output of [json_dumps] *)

Lemma json_dumps_list (x : value) (rest : list value) :
  json_dumps (VList (x :: rest))
  = String "[" (json_dumps x ++ dumps_items_tail rest).
Proof. reflexivity. Qed.

Lemma json_dumps_dict (k : string) (x : value) (rest : list (string * value)) :
  json_dumps (VDict ((k, x) :: rest))
  = String "{" (encode_basestring_ascii k ++ String ":" (String " "
      (json_dumps x ++ dumps_fields_tail rest))).
Proof. reflexivity. Qed.


Lemma json_dumps_head (v : value) :
  exists c r, json_dumps v = String c r /\ value_start c = true.
Proof.
  destruct v as [|[]|z|s|items|fields]; cbn [json_dumps];
    try (eexists _, _; split; reflexivity).
  - unfold int_repr. destruct (z <? 0).
    + eexists _, _; split; reflexivity.
    + destruct (N_repr_head (Z.to_N z)) as (c & r & -> & Hc & _).
      exists c, r. split; [reflexivity|].
      unfold value_start. rewrite Hc. apply orb_true_r.
  - destruct items; eexists _, _; split; reflexivity.
  - destruct fields as [|[k x] fields]; eexists _, _; split; reflexivity.
Qed.

Lemma value_start_not_ws (c : ascii) (r : string) :
  value_start c = true -> skip_ws (String c r) = String c r.
Proof.
  intros Hc. cbn [skip_ws].
  replace (is_ws c) with false; [reflexivity|].
  unfold value_start, is_digit in Hc. unfold is_ws.
  repeat (apply orb_true_iff in Hc as [Hc|Hc]); codes.
Qed.

Lemma value_start_not_close (close : N) (c : ascii) :
  (close = 93 \/ close = 125)%N -> value_start c = true ->
  (N_of_ascii c =? close)%N = false.
Proof.
  intros Hclose Hc. unfold value_start, is_digit in Hc.
  repeat (apply orb_true_iff in Hc as [Hc|Hc]); codes.
Qed.

Lemma read_value_space (fuel : nat) (s : string) :
  read_value fuel (String " " s) = read_value fuel s.
Proof. destruct fuel; reflexivity. Qed.

Lemma read_items_space (fuel : nat) (s : string) :
  read_items fuel (String " " s) = read_items fuel s.
Proof.
  destruct fuel; [reflexivity|]. cbn [read_items].
  now rewrite read_value_space.
Qed.

Lemma read_members_space (fuel : nat) (s : string) :
  read_members fuel (String " " s) = read_members fuel s.
Proof. destruct fuel; reflexivity. Qed.

Lemma read_value_number (fuel : nat) (c : ascii) (r : string) :
  (N_of_ascii c = 45%N \/ is_digit c = true) ->
  read_value (S fuel) (String c r) =
    match read_number (String c r) with
    | Some (z, r') => Some (VInt z, r')
    | None => None
    end.
Proof.
  intros Hc.
  assert (Hstart : value_start c = true).
  { unfold value_start. destruct Hc as [->| ->]; [reflexivity|].
    apply orb_true_r. }
  cbn [read_value]. rewrite value_start_not_ws by assumption.
  unfold is_digit in Hc.
  replace (N_of_ascii c =? 110)%N with false by (destruct Hc; codes).
  replace (N_of_ascii c =? 116)%N with false by (destruct Hc; codes).
  replace (N_of_ascii c =? 102)%N with false by (destruct Hc; codes).
  replace (N_of_ascii c =? 34)%N with false by (destruct Hc; codes).
  replace (N_of_ascii c =? 91)%N with false by (destruct Hc; codes).
  replace (N_of_ascii c =? 123)%N with false by (destruct Hc; codes).
  reflexivity.
Qed.

Lemma read_value_string (fuel : nat) (body : string) :
  read_value (S fuel) (String dquote body) =
    match read_string_body body with
    | Some (str, r) => Some (VStr str, r)
    | None => None
    end.
Proof. reflexivity. Qed.

Lemma read_value_array (fuel : nat) (c : ascii) (r : string) :
  value_start c = true ->
  read_value (S fuel) (String "[" (String c r)) =
    match read_items fuel (String c r) with
    | Some (items, r') => Some (VList items, r')
    | None => None
    end.
Proof.
  intros Hc. cbn [read_value skip_ws].
  change (is_ws "[") with false. cbn iota.
  change (N_of_ascii "[") with 91%N. cbn [N.eqb Pos.eqb].
  rewrite value_start_not_ws by assumption. cbn [head_is].
  now rewrite (value_start_not_close 93) by auto.
Qed.

Lemma read_value_object (fuel : nat) (c : ascii) (r : string) :
  value_start c = true ->
  read_value (S fuel) (String "{" (String c r)) =
    match read_members fuel (String c r) with
    | Some (fields, r') => Some (VDict fields, r')
    | None => None
    end.
Proof.
  intros Hc. cbn [read_value skip_ws].
  change (is_ws "{") with false. cbn iota.
  change (N_of_ascii "{") with 123%N. cbn [N.eqb Pos.eqb].
  rewrite value_start_not_ws by assumption. cbn [head_is].
  now rewrite (value_start_not_close 125) by auto.
Qed.

Lemma dumps_items_tail_head (l : list value) :
  exists c r, dumps_items_tail l = String c r
              /\ (N_of_ascii c = 93 \/ N_of_ascii c = 44)%N.
Proof. destruct l; eexists _, _; split; try reflexivity; auto. Qed.

Lemma dumps_fields_tail_head (l : list (string * value)) :
  exists c r, dumps_fields_tail l = String c r
              /\ (N_of_ascii c = 125 \/ N_of_ascii c = 44)%N.
Proof.
  destruct l as [|[k x] l]; eexists _, _; split; try reflexivity; auto.
Qed.

Lemma number_end_separator (c : ascii) (r : string) :
  (N_of_ascii c = 93 \/ N_of_ascii c = 125 \/ N_of_ascii c = 44)%N ->
  number_end (String c r) = true.
Proof.
  intros Hc. unfold number_end, is_digit, is_frac_or_exp. cbn [head_is].
  destruct Hc as [Hc|[Hc|Hc]]; rewrite Hc; reflexivity.
Qed.

Lemma number_end_items_tail (l : list value) (rest : string) :
  number_end (dumps_items_tail l ++ rest) = true.
Proof.
  destruct (dumps_items_tail_head l) as (c & r & -> & Hc).
  cbn [append]. apply number_end_separator. tauto.
Qed.

Lemma number_end_fields_tail (l : list (string * value)) (rest : string) :
  number_end (dumps_fields_tail l ++ rest) = true.
Proof.
  destruct (dumps_fields_tail_head l) as (c & r & -> & Hc).
  cbn [append]. apply number_end_separator. tauto.
Qed.


Lemma read_separator_comma (close : N) (s : string) :
  (close = 93 \/ close = 125)%N ->
  read_separator close (String "," s) = (Comma, s).
Proof. intros [-> | ->]; reflexivity. Qed.

Lemma head_colon (s : string) :
  head_is (fun c => (N_of_ascii c =? 58)%N) (skip_ws (String ":" s)) = true.
Proof. reflexivity. Qed.

Lemma after_colon (s : string) : snd (read_separator 58 (String ":" s)) = s.
Proof. reflexivity. Qed.

Lemma read_members_key (fuel : nat) (body : string) :
  read_members (S fuel) (String dquote body) =
    match read_string_body body with
    | Some (k, r) =>
        if head_is (fun c => (N_of_ascii c =? 58)%N) (skip_ws r) then
          match read_value fuel (snd (read_separator 58 r)) with
          | Some (v, r2) =>
              match read_separator 125 r2 with
              | (Close, r3) => Some ([(k, v)], r3)
              | (Comma, r3) =>
                  match read_members fuel r3 with
                  | Some (kvs, r4) => Some ((k, v) :: kvs, r4)
                  | None => None
                  end
              | (Other, _) => None
              end
          | None => None
          end
        else None
    | None => None
    end.
Proof. reflexivity. Qed.

Lemma read_items_dumps (xs : list value) :
  Forall reads_back xs ->
  forall (x : value) (fuel : nat) (rest : string),
    reads_back x ->
    (2 * String.length (json_dumps x ++ dumps_items_tail xs) <= fuel)%nat ->
    read_items fuel (json_dumps x ++ dumps_items_tail xs ++ rest)
    = Some (x :: xs, rest).
Proof.
  induction 1 as [|y ys Hy Hys IH]; intros x fuel rest Hx Hfuel;
    rewrite str_length_app in Hfuel; cbn [dumps_items_tail] in *.
  - destruct fuel as [|fuel]; [cbn in Hfuel; lia|]. cbn [read_items].
    rewrite Hx; [reflexivity| cbn in Hfuel; lia | reflexivity].
  - cbn [append String.length] in Hfuel. rewrite str_length_app in Hfuel.
    destruct fuel as [|fuel]; [lia|]. cbn [read_items].
    rewrite Hx; [| lia | reflexivity].
    cbn [append]. rewrite read_separator_comma by auto.
    rewrite read_items_space, str_app_assoc, IH; [reflexivity | assumption |].
    rewrite str_length_app. lia.
Qed.

Lemma read_members_dumps (fields : list (string * value)) :
  Forall (fun kv => reads_back (snd kv)) fields ->
  forall (k : string) (x : value) (fuel : nat) (rest : string),
    reads_back x ->
    (2 * String.length (encode_basestring_ascii k ++ String ":" (String " "
           (json_dumps x ++ dumps_fields_tail fields))) <= fuel)%nat ->
    read_members fuel
      (encode_basestring_ascii k ++ String ":" (String " "
         (json_dumps x ++ dumps_fields_tail fields ++ rest)))
    = Some ((k, x) :: fields, rest).
Proof.
  induction 1 as [|[k' y] ys Hy Hys IH]; intros k x fuel rest Hx Hfuel;
    rewrite str_length_app in Hfuel; cbn [String.length] in Hfuel;
    rewrite str_length_app in Hfuel; cbn [dumps_fields_tail] in *;
    (destruct fuel as [|fuel]; [lia|]);
    rewrite encode_basestring_ascii_app, read_members_key, read_escape_chars,
      head_colon, after_colon, read_value_space.
  - rewrite Hx; [reflexivity| cbn in Hfuel; lia | reflexivity].
  - cbn [append String.length] in Hfuel.
    rewrite str_length_app in Hfuel. cbn [String.length] in Hfuel.
    rewrite str_length_app in Hfuel.
    rewrite Hx; [| lia | reflexivity].
    cbn [append]. rewrite read_separator_comma by auto.
    rewrite read_members_space, str_app_assoc. cbn [append].
    rewrite str_app_assoc.
    rewrite (IH k' y fuel rest); [reflexivity | assumption |].
    rewrite str_length_app. cbn [String.length]. rewrite str_length_app. lia.
Qed.

Lemma read_value_dumps (v : value) : reads_back v.
Proof.
  induction v as [| b | z | s | items IH | fields IH] using value_nested_ind;
    intros fuel rest Hfuel Hrest.
  - destruct fuel as [|fuel]; [cbn in Hfuel; lia | reflexivity].
  - destruct fuel as [|fuel]; [destruct b; cbn in Hfuel; lia|].
    destruct b; reflexivity.
  - cbn [json_dumps] in *.
    destruct (json_dumps_head (VInt z)) as (c & r & Heq & Hc).
    cbn [json_dumps] in Heq.
    destruct fuel as [|fuel]; [rewrite Heq in Hfuel; cbn in Hfuel; lia|].
    assert (Hkind : N_of_ascii c = 45%N \/ is_digit c = true).
    { revert Heq. unfold int_repr. destruct (z <? 0).
      - intros [= <- _]. now left.
      - destruct (N_repr_head (Z.to_N z)) as (c' & r' & -> & Hc' & _).
        intros [= <- _]. now right. }
    pose proof (read_number_int_repr z rest Hrest) as Hnum.
    rewrite Heq in *. cbn [append] in *.
    rewrite read_value_number by assumption. now rewrite Hnum.
  - cbn [json_dumps] in *.
    destruct fuel as [|fuel].
    { pose proof (encode_basestring_ascii_length s). lia. }
    rewrite encode_basestring_ascii_app, read_value_string.
    now rewrite read_escape_chars.
  - destruct items as [|x xs].
    + destruct fuel as [|fuel]; [cbn in Hfuel; lia | reflexivity].
    + rewrite json_dumps_list in *. cbn [String.length] in Hfuel.
      destruct fuel as [|fuel]; [lia|].
      apply Forall_cons in IH as [Hx Hxs].
      cbn [append]. rewrite str_app_assoc.
      destruct (json_dumps_head x) as (c & r & Heq & Hc).
      pose proof (read_items_dumps xs Hxs x fuel rest Hx ltac:(lia)) as Hitems.
      rewrite Heq in *. cbn [append] in *.
      rewrite read_value_array by assumption. now rewrite Hitems.
  - destruct fields as [|[k x] fields].
    + destruct fuel as [|fuel]; [cbn in Hfuel; lia | reflexivity].
    + rewrite json_dumps_dict in *. cbn [String.length] in Hfuel.
      destruct fuel as [|fuel]; [lia|].
      apply Forall_cons in IH as [Hx Hxs]. cbn [snd] in Hx.
      pose proof (read_members_dumps fields Hxs k x fuel rest Hx ltac:(lia))
        as Hmembers.
      cbn [append]. rewrite str_app_assoc. cbn [append].
      rewrite str_app_assoc.
      rewrite encode_basestring_ascii_app in *.
      rewrite read_value_object by reflexivity. now rewrite Hmembers.
Qed.

(** [json_dumps] writes JSON, and the JSON stands for the value it was
    given. *)
Lemma json_parse_dumps (v : value) : json_parse (json_dumps v) = Some v.
Proof.
  unfold json_parse.
  rewrite <- (str_app_nil_r (json_dumps v)) at 2.
  rewrite read_value_dumps; [reflexivity | lia | reflexivity].
Qed.

(** ** [isoformat] against the ISO-8601 layouts *)

Lemma fixed_digits_length (w : nat) (n : N) :
  String.length (fixed_digits w n) = w.
Proof. induction w as [|w IH]; simpl; congruence. Qed.

Lemma fixed_digits_snoc (w : nat) (n : N) :
  fixed_digits (S w) n
  = fixed_digits w (n / 10) ++ String (digit_char (n mod 10)) EmptyString.
Proof.
  induction w as [|w IH].
  - cbn [fixed_digits append]. now rewrite N.pow_0_r, N.div_1_r.
  - change (fixed_digits (S (S w)) n)
      with (String (digit_char ((n / 10 ^ N.of_nat (S w)) mod 10))
              (fixed_digits (S w) n)).
    rewrite IH. cbn [fixed_digits append]. f_equal. f_equal.
    rewrite Nat2N.inj_succ, N.pow_succ_r'.
    now rewrite N.Div0.div_div.
Qed.

Lemma fixed_digits_zero (w : nat) : fixed_digits w 0 = zeros w.
Proof.
  induction w as [|w IH]; cbn [fixed_digits zeros]; [reflexivity|].
  now rewrite IH, N.Div0.div_0_l.
Qed.

Lemma N_repr_length_pos (n : N) : (1 <= String.length (N_repr n))%nat.
Proof.
  destruct (N_repr_head n) as (c & r & -> & _). cbn [String.length]. lia.
Qed.

(** Within its width, [%0wd] prints exactly [w] digits. *)
Lemma fmt_0d_fixed (w : nat) :
  forall n : N, (n < 10 ^ N.of_nat (S w))%N ->
    fmt_0d (S w) n = fixed_digits (S w) n.
Proof.
  unfold fmt_0d. induction w as [|w IH]; intros n Hn.
  - change (10 ^ N.of_nat 1)%N with 10%N in Hn.
    rewrite N_repr_eq. destruct (N.ltb_spec n 10); [|lia].
    cbn [String.length Nat.sub zeros append fixed_digits].
    now rewrite N.pow_0_r, N.div_1_r, N.mod_small.
  - rewrite fixed_digits_snoc, N_repr_eq.
    destruct (N.ltb_spec n 10) as [Hsmall|Hbig].
    + cbn [String.length]. replace (S (S w) - 1)%nat with (S w) by lia.
      rewrite N.div_small, N.mod_small by assumption.
      now rewrite fixed_digits_zero.
    + rewrite str_length_app. cbn [String.length].
      pose proof (N_repr_length_pos (n / 10)).
      replace (S (S w) - (String.length (N_repr (n / 10)) + 1))%nat
        with (S w - String.length (N_repr (n / 10)))%nat by lia.
      rewrite <- str_app_assoc. f_equal. apply IH.
      rewrite Nat2N.inj_succ, N.pow_succ_r' in Hn.
      apply N.Div0.div_lt_upper_bound. lia.
Qed.

Lemma days_in_month_le (y m : N) : (days_in_month y m <= 31)%N.
Proof.
  unfold days_in_month.
  destruct (m =? 2)%N; [destruct (is_leap y); lia|].
  destruct ((m =? 4) || (m =? 6) || (m =? 9) || (m =? 11))%N; lia.
Qed.

(** The two layouts [isoformat] produces. *)
Lemma isoformat_layout (d : datetime) :
  valid_datetime d = true ->
  isoformat d =
    if (microsecond d =? 0)%N then iso8601_seconds d
    else iso8601_microseconds d.
Proof.
  unfold valid_datetime. intros Hd. bool_hyps.
  pose proof (days_in_month_le (year d) (month d)).
  unfold isoformat, format_time, iso8601_microseconds, iso8601_seconds.
  rewrite (fmt_0d_fixed 3), !(fmt_0d_fixed 1) by (cbn; lia).
  destruct (microsecond d =? 0)%N.
  - now rewrite ?str_app_assoc.
  - rewrite (fmt_0d_fixed 5) by (cbn; lia).
    now rewrite ?str_app_assoc.
Qed.

Lemma iso8601_seconds_length (d : datetime) :
  String.length (iso8601_seconds d) = 19%nat.
Proof.
  unfold iso8601_seconds.
  repeat (rewrite str_length_app; cbn [String.length]).
  now rewrite !fixed_digits_length.
Qed.

Lemma iso8601_microseconds_length (d : datetime) :
  String.length (iso8601_microseconds d) = 26%nat.
Proof.
  unfold iso8601_microseconds.
  repeat (rewrite str_length_app; cbn [String.length]).
  now rewrite iso8601_seconds_length, fixed_digits_length.
Qed.

(** ** [json_dumps_obj] against [json_dumps] *)

Lemma json_dumps_obj_list (x : pyobj) (rest : list pyobj) :
  json_dumps_obj (PList (x :: rest))
  = rbind (json_dumps_obj x) (fun sx =>
    rbind (dumps_obj_items_tail rest) (fun st =>
    Ok (String "[" (sx ++ st)))).
Proof. reflexivity. Qed.

Lemma json_dumps_obj_dict (k : string) (x : pyobj)
    (rest : list (string * pyobj)) :
  json_dumps_obj (PDict ((k, x) :: rest))
  = rbind (json_dumps_obj x) (fun sx =>
    rbind (dumps_obj_fields_tail rest) (fun st =>
    Ok (String "{" (encode_basestring_ascii k ++ String ":" (String " "
          (sx ++ st)))))).
Proof. reflexivity. Qed.

Lemma to_value_list (items : list pyobj) :
  to_value (PList items)
  = match to_values items with
    | Some vs => Some (VList vs)
    | None => None
    end.
Proof. reflexivity. Qed.

Lemma to_value_dict (fields : list (string * pyobj)) :
  to_value (PDict fields)
  = match to_fields fields with
    | Some kvs => Some (VDict kvs)
    | None => None
    end.
Proof. reflexivity. Qed.

Lemma dumps_obj_items_tail_spec (l : list pyobj) :
  Forall dumps_as_value l ->
  dumps_obj_items_tail l
  = match to_values l with
    | Some vs => Ok (dumps_items_tail vs)
    | None => Raise TypeError
    end.
Proof.
  induction 1 as [|y ys Hy _ IH]; [reflexivity|].
  cbn [dumps_obj_items_tail to_values]. rewrite Hy, IH.
  destruct (to_value y) as [v|]; [|reflexivity].
  destruct (to_values ys) as [vs|]; reflexivity.
Qed.

Lemma dumps_obj_fields_tail_spec (l : list (string * pyobj)) :
  Forall (fun kv => dumps_as_value (snd kv)) l ->
  dumps_obj_fields_tail l
  = match to_fields l with
    | Some kvs => Ok (dumps_fields_tail kvs)
    | None => Raise TypeError
    end.
Proof.
  induction 1 as [|[k y] ys Hy _ IH]; [reflexivity|].
  cbn [snd] in Hy. cbn [dumps_obj_fields_tail to_fields]. rewrite Hy, IH.
  destruct (to_value y) as [v|]; [|reflexivity].
  destruct (to_fields ys) as [kvs|]; reflexivity.
Qed.

(** [json_dumps_obj] prints an object made of the JSON kinds as
    [json_dumps] prints its value, and raises [TypeError] on every
    other. *)
Lemma json_dumps_obj_spec (o : pyobj) : dumps_as_value o.
Proof.
  induction o as [| b | n | s | items IH | fields IH | c e | data | elements]
    using pyobj_nested_ind; unfold dumps_as_value; try reflexivity.
  - destruct b; reflexivity.
  - destruct items as [|x xs]; [reflexivity|].
    apply Forall_cons in IH as [Hx Hxs].
    rewrite json_dumps_obj_list, to_value_list. cbn [to_values].
    rewrite Hx, (dumps_obj_items_tail_spec xs Hxs).
    destruct (to_value x) as [v|]; [|reflexivity].
    destruct (to_values xs) as [vs|]; reflexivity.
  - destruct fields as [|[k x] fields]; [reflexivity|].
    apply Forall_cons in IH as [Hx Hxs]. cbn [snd] in Hx.
    rewrite json_dumps_obj_dict, to_value_dict. cbn [to_fields].
    rewrite Hx, (dumps_obj_fields_tail_spec fields Hxs).
    destruct (to_value x) as [v|]; [|reflexivity].
    destruct (to_fields fields) as [kvs|]; reflexivity.
Qed.

Lemma json_dumps_obj_ok (o : pyobj) (s : string) :
  json_dumps_obj o = Ok s ->
  exists v, to_value o = Some v /\ s = json_dumps v.
Proof.
  rewrite (json_dumps_obj_spec o).
  destruct (to_value o) as [v|]; [|discriminate].
  intros [= <-]. eauto.
Qed.

Lemma to_values_length (l : list pyobj) (vs : list value) :
  to_values l = Some vs -> List.length vs = List.length l.
Proof.
  revert vs. induction l as [|x l IH]; intros vs; cbn [to_values].
  - now intros [= <-].
  - destruct (to_value x) as [v|]; [|discriminate].
    destruct (to_values l) as [vs'|]; [|discriminate].
    intros [= <-]. cbn [List.length]. now rewrite (IH vs').
Qed.

(** ** Subscripts *)

Lemma py_getitem_first (x : value) (l : list value) :
  py_getitem (VList (x :: l)) 0 = Ok x.
Proof.
  unfold py_getitem, seq_index. cbn [List.length Z.ltb Z.compare Z.leb].
  replace (0 <? Z.of_nat (S (List.length l))) with true
    by (symmetry; apply Z.ltb_lt; lia).
  reflexivity.
Qed.

Lemma py_getitem_empty : py_getitem (VList []) 0 = Raise IndexError.
Proof. reflexivity. Qed.

(** ** The notifier, step by step *)

Section Notifier.
Context {DB : Type} `{TableCapability DB} {C : Type}.
Implicit Types (table : table_resource) (event m : value) (context : C)
  (w : World DB).

(** Every run of the handler: print, extract, put, answer. *)
Lemma notifier_run table event context w :
  Lambda.lambda_handler C table event context w =
    match Lambda.message_of event with
    | Raise e => (Raise e, printed event w)
    | Ok m =>
        match put_item table (record_of (isoformat (clock w)) m) (db w) with
        | Ok tables => (Ok log_stored, after_put table event m tables w)
        | Raise e => (Raise e, after_put table event m (db w) w)
        end
    end.
Proof.
  unfold Lambda.lambda_handler, bind, print, datetime_utcnow, lift,
    table_put_item, ret, printed, after_put, record_of, received_line.
  cbn [clock stdout db requests].
  destruct (Lambda.message_of event) as [m|e]; [|reflexivity].
  destruct (put_item _ _ _); reflexivity.
Qed.

Lemma message_of_present event m :
  has_message event m -> Lambda.message_of event = Ok m.
Proof.
  unfold has_message, message_path, Lambda.message_of.
  destruct event as [| | | | |fields]; try discriminate.
  cbn [py_get rbind].
  destruct (dict_lookup "Records" fields) as [records|]; [|discriminate].
  destruct records as [| | | |[|first others]|]; try discriminate.
  destruct first as [| | | | |first]; try discriminate.
  rewrite py_getitem_first. cbn [py_get rbind].
  destruct (dict_lookup "Sns" first) as [sns|]; [|discriminate].
  destruct sns as [| | | | |sns]; try discriminate.
  cbn [py_get rbind]. now intros ->.
Qed.

Lemma message_of_fallback event :
  lacks_message event -> Lambda.message_of event = Ok (VStr "Test alert").
Proof.
  intros [fields HR | fields first others HR HS
          | fields first others sns HR HS HM];
    unfold Lambda.message_of; cbn [py_get rbind]; rewrite HR;
    rewrite py_getitem_first; cbn [py_get rbind].
  - reflexivity.
  - now rewrite HS.
  - rewrite HS. cbn [py_get rbind]. now rewrite HM.
Qed.

Lemma message_of_shaped event :
  lookup_shaped event = true -> exists m, Lambda.message_of event = Ok m.
Proof.
  destruct event as [| | | | |fields]; try discriminate.
  unfold lookup_shaped, Lambda.message_of. cbn [py_get rbind].
  destruct (dict_lookup "Records" fields) as [records|];
    [|rewrite py_getitem_first; cbn; eauto].
  destruct records as [| | | |[|first others]|]; try discriminate.
  destruct first as [| | | | |first]; try discriminate.
  rewrite py_getitem_first. cbn [py_get rbind].
  destruct (dict_lookup "Sns" first) as [sns|]; [|cbn; eauto].
  destruct sns; try discriminate. cbn. eauto.
Qed.
(** A walkable event without the path lacks one of its keys. *)
Lemma lookup_shaped_lacks event :
  lookup_shaped event = true -> message_path event = None ->
  lacks_message event.
Proof.
  destruct event as [| | | | |fields]; try discriminate.
  cbn [lookup_shaped message_path].
  destruct (dict_lookup "Records" fields) as [records|] eqn:HR;
    [|intros _ _; now apply lacks_Records].
  destruct records as [| | | |[|first others]|]; try discriminate.
  destruct first as [| | | | |first]; try discriminate.
  destruct (dict_lookup "Sns" first) as [sns|] eqn:HS;
    [|intros _ _; now apply (lacks_Sns fields first others)].
  destruct sns as [| | | | |sns]; try discriminate.
  intros _ HM. now apply (lacks_Message fields first others sns).
Qed.
End Notifier.

(** ** The log reader, step by step *)

Section Reader.
Context {DB : Type} `{TableCapability DB} {C : Type}.
Implicit Types (table : table_resource) (event : value) (context : C)
  (w : World DB).

(** Every run of the handler: scan, take the items, encode, answer. *)
Lemma reader_run table event context w :
  API_Integration.lambda_handler C table event context w =
    match scan table 10 (db w) with
    | Raise e => (Raise e, after_scan table w)
    | Ok response =>
        match obj_get response "Items" (PList []) with
        | Ok items =>
            match json_dumps_obj items with
            | Ok body => (Ok (json_response body), after_scan table w)
            | Raise e => (Raise e, after_scan table w)
            end
        | Raise e => (Raise e, after_scan table w)
        end
    end.
Proof.
  unfold API_Integration.lambda_handler, bind, table_scan, lift, ret,
    after_scan, json_response.
  destruct (scan table 10 (db w)) as [response|e]; [|reflexivity].
  destruct (obj_get response "Items" (PList [])) as [items|e];
    [|reflexivity].
  destruct (json_dumps_obj items); reflexivity.
Qed.

Lemma scanned_items_get response items :
  scanned_items response = Some items ->
  obj_get response "Items" (PList []) = Ok (PList items).
Proof.
  destruct response as [| | | | |fields| | |]; try discriminate.
  unfold scanned_items, obj_get.
  destruct (obj_lookup "Items" fields) as [v|].
  - destruct v; try discriminate. now intros [= ->].
  - now intros [= <-].
Qed.
End Reader.

(** * The claims *)

Section Claims.
Context {DB : Type} `{TableCapability DB} {C : Type}.
Implicit Types (table : table_resource) (event m : value) (context : C)
  (w : World DB).

(** X1: the fallback message, where the lookup reaches it: for an event
    without [Records], a first record without [Sns], or an [Sns] without
    [Message], the record put carries the message "Test alert". *)
Lemma notifier_fallback_message table event context w :
  lacks_message event ->
  requests (snd (Lambda.lambda_handler C table event context w))
  = List.app (requests w)
      [PutItem table (record_of (isoformat (clock w)) (VStr "Test alert"))].
Proof.
  intros Hlacks. rewrite notifier_run, (message_of_fallback _ Hlacks).
  destruct (put_item _ _ _); reflexivity.
Qed.

(** C1, at the input where the code departs from it: on an event whose
    [Records] is the empty list the handler raises [IndexError] once it
    has printed the event; no record is written, so none carries the
    message "Test alert". *)
Theorem notifier_empty_records_raises table context w :
  let event := VDict [("Records", VList [])] in
  Lambda.lambda_handler C table event context w
  = (Raise IndexError, printed event w)
  /\ requests (printed event w) = requests w.
Proof. split; reflexivity. Qed.

(** C2, amended: on an event that is an object whose [Records], if
    present, is a list starting with an object whose [Sns], if present,
    is an object, the lookup yields a message: the value at
    [Records[0].Sns.Message] when the path is there, the fallback string
    "Test alert" when a key on it is missing.  The handler returns the
    success response whenever the table's put succeeds, and it raises
    nothing but what the put raises. *)
Theorem notifier_returns_on_shaped_events table event context w :
  lookup_shaped event = true ->
  exists m,
    Lambda.message_of event = Ok m
    /\ m = match message_path event with
           | Some v => v
           | None => VStr "Test alert"
           end
    /\ (lacks_message event -> m = VStr "Test alert")
    /\ (forall tables,
          put_item table (record_of (isoformat (clock w)) m) (db w)
          = Ok tables ->
          fst (Lambda.lambda_handler C table event context w)
          = Ok log_stored)
    /\ (forall e,
          fst (Lambda.lambda_handler C table event context w) = Raise e ->
          put_item table (record_of (isoformat (clock w)) m) (db w)
          = Raise e).
Proof.
  intros Hshape. destruct (message_of_shaped _ Hshape) as [m Hm].
  exists m. rewrite notifier_run, Hm. repeat split.
  - destruct (message_path event) as [v|] eqn:Hpath.
    + pose proof (message_of_present event v Hpath). congruence.
    + pose proof (message_of_fallback event
                    (lookup_shaped_lacks event Hshape Hpath)). congruence.
  - intros Hlacks. pose proof (message_of_fallback event Hlacks). congruence.
  - now intros tables ->.
  - intros e. destruct (put_item _ _ _); cbn [fst]; congruence.
Qed.

(** C3: when the event holds [Records[0].Sns.Message = m], the one
    request the handler sends is the put of a record whose [message]
    field is [m], and a put that succeeds leaves the tables as that put
    made them. *)
Theorem notifier_writes_message table event m context w :
  has_message event m ->
  exists item,
    py_get item "message" VNone = Ok m
    /\ requests (snd (Lambda.lambda_handler C table event context w))
       = List.app (requests w) [PutItem table item]
    /\ (forall tables,
          put_item table item (db w) = Ok tables ->
          db (snd (Lambda.lambda_handler C table event context w))
          = tables).
Proof.
  intros Hm. exists (record_of (isoformat (clock w)) m).
  rewrite notifier_run, (message_of_present _ _ Hm).
  repeat split.
  - destruct (put_item _ _ _); reflexivity.
  - now intros tables ->.
Qed.

(** C4, amended: when the scan returns a response whose [Items] is
    missing or a list of at most 10 records, and the records are made of
    the JSON kinds only (strings, booleans, null, integers, lists and
    maps of these), the handler returns status 200 with the header
    [Content-Type: application/json] and a body that is JSON for an array
    of exactly those records, hence of at most 10; the body is [[]] when
    there are none.  When a record holds an object that is not JSON (the
    [Decimal] of a number attribute, a [Binary], a [set]) the handler
    raises [TypeError] and returns nothing. *)
Theorem reader_returns_json_array table event context w response items :
  scan table 10 (db w) = Ok response ->
  scanned_items response = Some items ->
  (List.length items <= 10)%nat ->
  (forall records,
     to_values items = Some records ->
     exists body,
       fst (API_Integration.lambda_handler C table event context w)
       = Ok (json_response body)
       /\ json_parse body = Some (VList records)
       /\ (List.length records <= 10)%nat
       /\ (items = [] -> body = "[]"))
  /\ (to_values items = None ->
      fst (API_Integration.lambda_handler C table event context w)
      = Raise TypeError).
Proof.
  intros Hscan Hitems Hlen.
  rewrite reader_run, Hscan, (scanned_items_get _ _ Hitems).
  rewrite (json_dumps_obj_spec (PList items)), to_value_list.
  split.
  - intros records Hrecords. rewrite Hrecords.
    exists (json_dumps (VList records)). repeat split.
    + apply json_parse_dumps.
    + rewrite (to_values_length _ _ Hrecords). assumption.
    + intros ->. cbn in Hrecords. now injection Hrecords as <-.
  - now intros ->.
Qed.

(** C5: when the lookup yields a message and the table's put succeeds,
    the handler sends exactly one request, the put of the record
    [{ id: timestamp, message }], leaves the tables as the put made
    them, and returns exactly [{ statusCode: 200, body: "Log stored" }]. *)
Theorem notifier_put_succeeds table event m context w tables :
  Lambda.message_of event = Ok m ->
  put_item table (record_of (isoformat (clock w)) m) (db w) = Ok tables ->
  let run := Lambda.lambda_handler C table event context w in
  fst run = Ok log_stored
  /\ requests (snd run)
     = List.app (requests w)
         [PutItem table
            (VDict [("id", VStr (isoformat (clock w))); ("message", m)])]
  /\ db (snd run) = tables.
Proof.
  intros Hm Hput. cbv zeta. rewrite notifier_run, Hm, Hput.
  repeat split.
Qed.

(** C6: without [DDB_TABLE] in the environment the notifier's module
    body raises [KeyError], so a cold start fails and leaves the world
    untouched: nothing is printed and nothing is sent to the table.
    The log reader's module body then runs to its end with the table
    named [CostTrackerLogs]. *)
Theorem table_name_required_or_defaulted
    (environ : environment) event context w :
  environ !! "DDB_TABLE" = None ->
  Lambda.table environ = Raise (KeyError (VStr "DDB_TABLE"))
  /\ invoke (Lambda.table environ) (Lambda.lambda_handler C)
       event context w
     = (Raise (KeyError (VStr "DDB_TABLE")), w)
  /\ API_Integration.table environ = Ok (Table "CostTrackerLogs")
  /\ invoke (API_Integration.table environ)
       (API_Integration.lambda_handler C) event context w
     = API_Integration.lambda_handler C (Table "CostTrackerLogs")
         event context w.
Proof.
  intros Hunset.
  unfold invoke, Lambda.table, Lambda.table_name, API_Integration.table,
    API_Integration.table_name.
  rewrite Hunset. repeat split.
Qed.

(** With [DDB_TABLE] set, both modules use the table of that name. *)
Lemma table_name_from_environment (environ : environment) (name : string) :
  environ !! "DDB_TABLE" = Some name ->
  Lambda.table environ = Ok (Table name)
  /\ API_Integration.table environ = Ok (Table name).
Proof.
  intros Hset.
  unfold Lambda.table, Lambda.table_name, API_Integration.table,
    API_Integration.table_name.
  rewrite Hset. split; reflexivity.
Qed.

(** C7: a failure of the table's put or scan comes out of the handler
    as the same exception: no response is returned, the tables are the
    ones the invocation started with, and the failed call is the only
    one made. *)
Theorem table_failure_propagates table event context w e :
  (forall m,
     Lambda.message_of event = Ok m ->
     put_item table (record_of (isoformat (clock w)) m) (db w) = Raise e ->
     Lambda.lambda_handler C table event context w
     = (Raise e, after_put table event m (db w) w))
  /\ (scan table 10 (db w) = Raise e ->
      API_Integration.lambda_handler C table event context w
      = (Raise e, after_scan table w)).
Proof.
  split.
  - intros m Hm Hput. now rewrite notifier_run, Hm, Hput.
  - intros Hscan. now rewrite reader_run, Hscan.
Qed.

(** C8, amended: the [id] of the record the handler sends is the clock
    reading of the invocation laid out as [YYYY-MM-DDTHH:MM:SS.ffffff]
    when its microsecond field is not zero, and as
    [YYYY-MM-DDTHH:MM:SS], without a fraction, when it is zero; nothing
    follows the time in either layout. *)
Theorem notifier_id_layout table event m context w :
  valid_datetime (clock w) = true ->
  Lambda.message_of event = Ok m ->
  let id :=
    if (microsecond (clock w) =? 0)%N then iso8601_seconds (clock w)
    else iso8601_microseconds (clock w) in
  requests (snd (Lambda.lambda_handler C table event context w))
  = List.app (requests w) [PutItem table (record_of id m)]
  /\ String.length id
     = if (microsecond (clock w) =? 0)%N then 19%nat else 26%nat.
Proof.
  intros Hvalid Hm. cbv zeta. rewrite notifier_run, Hm.
  unfold after_put. rewrite (isoformat_layout _ Hvalid). split.
  - destruct (put_item _ _ _); reflexivity.
  - destruct (microsecond (clock w) =? 0)%N;
      auto using iso8601_seconds_length, iso8601_microseconds_length.
Qed.

(** C9: two invocations of the log reader whose scans give the same
    result give the same response, whatever the two events and
    contexts are. *)
Theorem reader_ignores_event table event1 event2 (context1 context2 : C)
    (w1 w2 : World DB) :
  scan table 10 (db w1) = scan table 10 (db w2) ->
  fst (API_Integration.lambda_handler C table event1 context1 w1)
  = fst (API_Integration.lambda_handler C table event2 context2 w2).
Proof.
  intros Hscan. rewrite !reader_run, Hscan.
  destruct (scan table 10 (db w2)) as [response|e]; [|reflexivity].
  destruct (obj_get response "Items" (PList [])) as [items|e];
    [|reflexivity].
  destruct (json_dumps_obj items); reflexivity.
Qed.

(** C10: when the event holds [Records[0].Sns.Message = v], whatever
    value [v] is (a string or not, empty or not), the handler puts the
    record made of exactly the two fields [id] and [message], with [v]
    itself as [message], and answers as the put does. *)
Theorem notifier_stores_value_verbatim table event (v : value) context w :
  has_message event v ->
  let item :=
    VDict [("id", VStr (isoformat (clock w))); ("message", v)] in
  Lambda.lambda_handler C table event context w
  = match put_item table item (db w) with
    | Ok tables => (Ok log_stored, after_put table event v tables w)
    | Raise e => (Raise e, after_put table event v (db w) w)
    end
  /\ requests (snd (Lambda.lambda_handler C table event context w))
     = List.app (requests w) [PutItem table item].
Proof.
  intros Hv. cbv zeta.
  rewrite notifier_run, (message_of_present _ _ Hv).
  split; [reflexivity|].
  unfold record_of. destruct (put_item _ _ _); reflexivity.
Qed.
End Claims.

(** * The claims on the in-memory table service *)

(** C2 fails on an event that is a JSON array: a list has no [get], the
    handler raises [AttributeError] and sends nothing to the table. *)
Lemma notifier_raises_on_array_event :
  fst (Lambda.lambda_handler unit (Table "logs") (VList []) tt mem_world)
  = Raise AttributeError
  /\ requests
       (snd (Lambda.lambda_handler unit (Table "logs") (VList []) tt mem_world))
     = [].
Proof. split; reflexivity. Qed.

Lemma notifier_returns_on_shaped_events_witness :
  lookup_shaped bare_record_event = true
  /\ exists m,
       Lambda.message_of bare_record_event = Ok m
       /\ m = match message_path bare_record_event with
              | Some v => v
              | None => VStr "Test alert"
              end
       /\ (lacks_message bare_record_event -> m = VStr "Test alert")
       /\ (forall tables,
             put_item (Table "logs")
               (record_of (isoformat (clock mem_world)) m) (db mem_world)
             = Ok tables ->
             fst (Lambda.lambda_handler unit (Table "logs") bare_record_event
                    tt mem_world)
             = Ok log_stored)
       /\ (forall e,
             fst (Lambda.lambda_handler unit (Table "logs") bare_record_event
                    tt mem_world)
             = Raise e ->
             put_item (Table "logs")
               (record_of (isoformat (clock mem_world)) m) (db mem_world)
             = Raise e).
Proof.
  split; [reflexivity|].
  apply (notifier_returns_on_shaped_events (C := unit)). reflexivity.
Defined.

Lemma notifier_writes_message_witness :
  has_message cpu_alarm_event (VStr "CPU alarm triggered")
  /\ exists item,
       py_get item "message" VNone = Ok (VStr "CPU alarm triggered")
       /\ requests
            (snd (Lambda.lambda_handler unit (Table "logs") cpu_alarm_event
                    tt mem_world))
          = List.app (requests mem_world) [PutItem (Table "logs") item]
       /\ (forall tables,
             put_item (Table "logs") item (db mem_world) = Ok tables ->
             db (snd (Lambda.lambda_handler unit (Table "logs")
                        cpu_alarm_event tt mem_world))
             = tables).
Proof.
  split; [reflexivity|].
  apply (notifier_writes_message (C := unit)). reflexivity.
Defined.


(** C4 fails on a table the notifier itself has written to: a message
    that is the number 5 is stored, comes back from the scan as the
    [Decimal] 5 in a list of one record, and the handler raises
    [TypeError] instead of returning a body. *)
Lemma reader_raises_on_stored_number :
  let stored :=
    Lambda.lambda_handler unit (Table "logs") number_event tt mem_world in
  fst stored = Ok log_stored
  /\ scan (Table "logs") 10 (db (snd stored))
     = Ok (PDict [("Items",
                   PList [PDict [("id", PStr "2024-05-17T09:03:07");
                                 ("message", PDecimal 5 0)]]);
                  ("Count", PInt 1)])
  /\ fst (API_Integration.lambda_handler unit (Table "logs") VNone tt
            (snd stored))
     = Raise TypeError.
Proof. repeat split. Qed.

Lemma reader_returns_json_array_witness :
  scan (Table "logs") 10 (db world_of_three)
  = Ok (PDict [("Items", PList three_returned); ("Count", PInt 3)])
  /\ scanned_items (PDict [("Items", PList three_returned); ("Count", PInt 3)])
     = Some three_returned
  /\ to_values three_returned = Some three_records
  /\ exists body,
       fst (API_Integration.lambda_handler unit (Table "logs") VNone tt
              world_of_three)
       = Ok (json_response body)
       /\ json_parse body = Some (VList three_records)
       /\ (List.length three_records <= 10)%nat
       /\ (three_returned = [] -> body = "[]").
Proof.
  split; [reflexivity|]. split; [reflexivity|]. split; [reflexivity|].
  apply (reader_returns_json_array (C := unit) (Table "logs") VNone tt
           world_of_three
           (PDict [("Items", PList three_returned); ("Count", PInt 3)])
           three_returned).
  - reflexivity.
  - reflexivity.
  - simpl. lia.
  - reflexivity.
Defined.

Lemma notifier_put_succeeds_witness :
  let run :=
    Lambda.lambda_handler unit (Table "logs") cpu_alarm_event tt mem_world in
  fst run = Ok log_stored
  /\ requests (snd run)
     = List.app (requests mem_world)
         [PutItem (Table "logs")
            (VDict [("id", VStr (isoformat (clock mem_world)));
                    ("message", VStr "CPU alarm triggered")])]
  /\ db (snd run)
     = <[ "logs" := [PDict [("id", PStr "2024-05-17T09:03:07");
                            ("message", PStr "CPU alarm triggered")]] ]>
         (db mem_world).
Proof.
  apply (notifier_put_succeeds (C := unit) (Table "logs") cpu_alarm_event
           (VStr "CPU alarm triggered") tt mem_world).
  - reflexivity.
  - reflexivity.
Defined.

Lemma table_name_required_or_defaulted_witness :
  (∅ : environment) !! "DDB_TABLE" = None
  /\ Lambda.table ∅ = Raise (KeyError (VStr "DDB_TABLE"))
  /\ invoke (Lambda.table ∅) (Lambda.lambda_handler unit)
       cpu_alarm_event tt mem_world
     = (Raise (KeyError (VStr "DDB_TABLE")), mem_world)
  /\ API_Integration.table ∅ = Ok (Table "CostTrackerLogs")
  /\ invoke (API_Integration.table ∅) (API_Integration.lambda_handler unit)
       cpu_alarm_event tt mem_world
     = API_Integration.lambda_handler unit (Table "CostTrackerLogs")
         cpu_alarm_event tt mem_world.
Proof.
  split; [reflexivity|].
  apply (table_name_required_or_defaulted (C := unit)). reflexivity.
Defined.

(** No table is called ["missing"], so every call on it fails. *)
Lemma table_failure_propagates_witness :
  let e := ClientError "ResourceNotFoundException" in
  let m := VStr "CPU alarm triggered" in
  (Lambda.message_of cpu_alarm_event = Ok m
   /\ put_item (Table "missing") (record_of (isoformat (clock mem_world)) m)
        (db mem_world) = Raise e
   /\ Lambda.lambda_handler unit (Table "missing") cpu_alarm_event tt mem_world
      = (Raise e,
         after_put (Table "missing") cpu_alarm_event m (db mem_world)
           mem_world))
  /\ (scan (Table "missing") 10 (db mem_world) = Raise e
      /\ API_Integration.lambda_handler unit (Table "missing")
           cpu_alarm_event tt mem_world
         = (Raise e, after_scan (Table "missing") mem_world)).
Proof.
  cbv zeta.
  destruct (table_failure_propagates (C := unit) (Table "missing")
              cpu_alarm_event tt mem_world
              (ClientError "ResourceNotFoundException")) as [Hput Hscan].
  split.
  - split; [reflexivity|]. split; [reflexivity|].
    apply Hput; reflexivity.
  - split; [reflexivity|]. apply Hscan. reflexivity.
Defined.

(** C8 fails when the clock reads a whole second: the [id] written has no
    fraction, while the layout with microseconds has one. *)
Lemma notifier_id_on_whole_second :
  requests
    (snd (Lambda.lambda_handler unit (Table "logs") (VDict []) tt mem_world))
  = [PutItem (Table "logs")
       (record_of "2024-05-17T09:03:07" (VStr "Test alert"))]
  /\ iso8601_microseconds (clock mem_world) = "2024-05-17T09:03:07.000000"
  /\ String.eqb "2024-05-17T09:03:07"
       (iso8601_microseconds (clock mem_world)) = false.
Proof. repeat split. Qed.

Lemma notifier_id_layout_witness :
  valid_datetime (clock mem_world_us) = true
  /\ requests
       (snd (Lambda.lambda_handler unit (Table "logs") (VDict []) tt
               mem_world_us))
     = List.app (requests mem_world_us)
         [PutItem (Table "logs")
            (record_of (iso8601_microseconds (clock mem_world_us))
               (VStr "Test alert"))]
  /\ String.length (iso8601_microseconds (clock mem_world_us)) = 26%nat.
Proof.
  split; [reflexivity|].
  apply (notifier_id_layout (C := unit) (Table "logs") (VDict [])
           (VStr "Test alert") tt mem_world_us); reflexivity.
Defined.

Lemma reader_ignores_event_witness :
  scan (Table "logs") 10 (db world_of_three)
  = scan (Table "logs") 10 (db world_of_three)
  /\ fst (API_Integration.lambda_handler unit (Table "logs") VNone tt
            world_of_three)
     = fst (API_Integration.lambda_handler unit (Table "logs")
              cpu_alarm_event tt world_of_three).
Proof.
  split; [reflexivity|].
  apply (reader_ignores_event (C := unit)). reflexivity.
Defined.


Lemma notifier_stores_value_verbatim_witness :
  has_message odd_event (VList [])
  /\ requests
       (snd (Lambda.lambda_handler unit (Table "logs") odd_event tt mem_world))
     = List.app (requests mem_world)
         [PutItem (Table "logs")
            (VDict [("id", VStr (isoformat (clock mem_world)));
                    ("message", VList [])])].
Proof.
  split; [reflexivity|].
  apply (notifier_stores_value_verbatim (C := unit) (Table "logs") odd_event
           (VList []) tt mem_world). reflexivity.
Defined.

(** * Further properties *)

(** ** The output of [json_dumps] is printable ASCII *)

Lemma all_printable_app (a b : string) :
  all_printable (a ++ b) = all_printable a && all_printable b.
Proof.
  induction a as [|c a IH]; simpl; [reflexivity|].
  now rewrite IH, andb_assoc.
Qed.

Lemma digit_printable (c : ascii) : is_digit c = true -> printable c = true.
Proof. unfold is_digit, printable. intros Hc. codes. Qed.

Lemma digits_printable (s : string) :
  all_digits s = true -> all_printable s = true.
Proof.
  induction s as [|c s IH]; simpl; [reflexivity|].
  intros Hs. apply andb_true_iff in Hs as [Hc Hs].
  now rewrite (digit_printable _ Hc), IH.
Qed.

Lemma int_repr_printable (z : Z) : all_printable (int_repr z) = true.
Proof.
  unfold int_repr. destruct (z <? 0); simpl;
    now rewrite digits_printable by apply N_repr_all_digits.
Qed.

Lemma escape_char_printable (c : ascii) :
  all_printable (escape_char c) = true.
Proof.
  destruct c as [b0 b1 b2 b3 b4 b5 b6 b7].
  destruct b0, b1, b2, b3, b4, b5, b6, b7; reflexivity.
Qed.

Lemma encode_basestring_ascii_printable (s : string) :
  all_printable (encode_basestring_ascii s) = true.
Proof.
  unfold encode_basestring_ascii. cbn [all_printable].
  change (printable dquote) with true. cbn [andb].
  rewrite all_printable_app. cbn [all_printable].
  change (printable dquote) with true. rewrite andb_true_r.
  induction s as [|c s IH]; [reflexivity|]. cbn [escape_chars].
  now rewrite all_printable_app, escape_char_printable, IH.
Qed.

Lemma json_dumps_printable (v : value) : all_printable (json_dumps v) = true.
Proof.
  induction v as [| b | z | s | items IH | fields IH] using value_nested_ind.
  - reflexivity.
  - destruct b; reflexivity.
  - apply int_repr_printable.
  - apply encode_basestring_ascii_printable.
  - destruct items as [|x xs]; [reflexivity|].
    rewrite json_dumps_list. apply Forall_cons in IH as [Hx Hxs].
    cbn [all_printable]. rewrite all_printable_app, Hx. cbn [andb].
    change (printable "[") with true. cbn [andb].
    induction Hxs as [|y ys Hy _ IHys]; [reflexivity|].
    cbn [dumps_items_tail append all_printable].
    now rewrite all_printable_app, Hy, IHys.
  - destruct fields as [|[k x] fields]; [reflexivity|].
    rewrite json_dumps_dict. apply Forall_cons in IH as [Hx Hxs].
    cbn [snd] in Hx. cbn [all_printable].
    rewrite all_printable_app, encode_basestring_ascii_printable.
    cbn [all_printable]. rewrite all_printable_app, Hx. cbn [andb].
    change (printable "{") with true. change (printable ":") with true.
    change (printable " ") with true. cbn [andb].
    induction Hxs as [|[k' y] ys Hy _ IHys]; [reflexivity|].
    cbn [snd] in Hy. cbn [dumps_fields_tail append all_printable].
    rewrite all_printable_app, encode_basestring_ascii_printable.
    cbn [append all_printable].
    now rewrite all_printable_app, Hy, IHys.
Qed.

(** ** [isoformat] tells clock readings apart *)

Lemma horner_fixed_digits (w : nat) :
  forall n : N, horner (fixed_digits w n) 0 = (n mod 10 ^ N.of_nat w)%N.
Proof.
  induction w as [|w IH]; intros n.
  - cbn [fixed_digits horner]. now rewrite N.pow_0_r, N.mod_1_r.
  - rewrite fixed_digits_snoc, horner_app, IH. cbn [horner].
    rewrite digit_char_code by (apply N.mod_lt; lia).
    rewrite Nat2N.inj_succ, N.pow_succ_r'.
    rewrite (N.Div0.mod_mul_r n 10 (10 ^ N.of_nat w)).
    set (q := ((n / 10) mod 10 ^ N.of_nat w)%N).
    set (r := (n mod 10)%N). clearbody q r. lia.
Qed.

Lemma fixed_digits_inj (w : nat) (a b : N) :
  (a < 10 ^ N.of_nat w)%N -> (b < 10 ^ N.of_nat w)%N ->
  fixed_digits w a = fixed_digits w b -> a = b.
Proof.
  intros Ha Hb Heq.
  pose proof (horner_fixed_digits w a) as Hha.
  pose proof (horner_fixed_digits w b) as Hhb.
  rewrite Heq, Hhb in Hha.
  now rewrite !N.mod_small in Hha by assumption.
Qed.

Lemma str_app_inj (a1 a2 b1 b2 : string) :
  String.length a1 = String.length a2 ->
  a1 ++ b1 = a2 ++ b2 -> a1 = a2 /\ b1 = b2.
Proof.
  revert a2. induction a1 as [|c a1 IH]; intros [|c' a2] Hlen Heq;
    try discriminate.
  - now split.
  - cbn [append] in Heq. injection Heq as -> Heq.
    cbn [String.length] in Hlen.
    destruct (IH a2 ltac:(lia) Heq) as [-> ->]. now split.
Qed.

(** A fixed-width field in front of a text. *)
Lemma fixed_field_inj (w : nat) (a b : N) (s t : string) :
  (a < 10 ^ N.of_nat w)%N -> (b < 10 ^ N.of_nat w)%N ->
  fixed_digits w a ++ s = fixed_digits w b ++ t -> a = b /\ s = t.
Proof.
  intros Ha Hb Heq.
  apply str_app_inj in Heq as [Hd ->];
    [|now rewrite !fixed_digits_length].
  split; [|reflexivity]. now apply (fixed_digits_inj w).
Qed.

Lemma valid_datetime_bounds (d : datetime) :
  valid_datetime d = true ->
  (year d < 10 ^ N.of_nat 4 /\ month d < 10 ^ N.of_nat 2
   /\ day d < 10 ^ N.of_nat 2 /\ hour d < 10 ^ N.of_nat 2
   /\ minute d < 10 ^ N.of_nat 2 /\ second d < 10 ^ N.of_nat 2
   /\ microsecond d < 10 ^ N.of_nat 6)%N.
Proof.
  unfold valid_datetime. intros Hd. bool_hyps.
  pose proof (days_in_month_le (year d) (month d)).
  cbn. repeat split; lia.
Qed.

Lemma iso8601_seconds_inj (d1 d2 : datetime) :
  valid_datetime d1 = true -> valid_datetime d2 = true ->
  iso8601_seconds d1 = iso8601_seconds d2 ->
  year d1 = year d2 /\ month d1 = month d2 /\ day d1 = day d2
  /\ hour d1 = hour d2 /\ minute d1 = minute d2 /\ second d1 = second d2.
Proof.
  intros H1 H2 Heq.
  destruct (valid_datetime_bounds d1 H1) as (Y1 & M1 & D1 & h1 & m1 & s1 & _).
  destruct (valid_datetime_bounds d2 H2) as (Y2 & M2 & D2 & h2 & m2 & s2 & _).
  unfold iso8601_seconds in Heq.
  apply fixed_field_inj in Heq as [HY Heq]; [|assumption..].
  apply str_app_inj in Heq as [_ Heq]; [|reflexivity].
  apply fixed_field_inj in Heq as [HM Heq]; [|assumption..].
  apply str_app_inj in Heq as [_ Heq]; [|reflexivity].
  apply fixed_field_inj in Heq as [HD Heq]; [|assumption..].
  apply str_app_inj in Heq as [_ Heq]; [|reflexivity].
  apply fixed_field_inj in Heq as [Hh Heq]; [|assumption..].
  apply str_app_inj in Heq as [_ Heq]; [|reflexivity].
  apply fixed_field_inj in Heq as [Hm Heq]; [|assumption..].
  apply str_app_inj in Heq as [_ Heq]; [|reflexivity].
  rewrite <- (str_app_nil_r (fixed_digits 2 (second d1))) in Heq.
  rewrite <- (str_app_nil_r (fixed_digits 2 (second d2))) in Heq.
  apply fixed_field_inj in Heq as [Hs _]; [|assumption..].
  auto 10.
Qed.

Lemma isoformat_inj (d1 d2 : datetime) :
  valid_datetime d1 = true -> valid_datetime d2 = true ->
  isoformat d1 = isoformat d2 -> d1 = d2.
Proof.
  intros H1 H2 Heq.
  rewrite (isoformat_layout _ H1), (isoformat_layout _ H2) in Heq.
  assert (Hfields :
    iso8601_seconds d1 = iso8601_seconds d2
    /\ microsecond d1 = microsecond d2).
  { destruct (N.eqb_spec (microsecond d1) 0) as [E1|E1],
             (N.eqb_spec (microsecond d2) 0) as [E2|E2].
    - split; congruence.
    - apply (f_equal String.length) in Heq.
      rewrite iso8601_seconds_length, iso8601_microseconds_length in Heq.
      discriminate.
    - apply (f_equal String.length) in Heq.
      rewrite iso8601_seconds_length, iso8601_microseconds_length in Heq.
      discriminate.
    - unfold iso8601_microseconds in Heq.
      apply str_app_inj in Heq as [Hs Hf];
        [|now rewrite !iso8601_seconds_length].
      split; [assumption|].
      apply str_app_inj in Hf as [_ Hf]; [|reflexivity].
      destruct (valid_datetime_bounds d1 H1) as (_ & _ & _ & _ & _ & _ & U1).
      destruct (valid_datetime_bounds d2 H2) as (_ & _ & _ & _ & _ & _ & U2).
      now apply (fixed_digits_inj 6). }
  destruct Hfields as [Hs Hu].
  destruct (iso8601_seconds_inj d1 d2 H1 H2 Hs)
    as (HY & HM & HD & Hh & Hm & Hsec).
  destruct d1, d2. cbn in *. congruence.
Qed.

(** ** The handlers, beyond the claims *)

Lemma message_of_non_list (fields : list (string * value)) (records : value) :
  dict_lookup "Records" fields = Some records ->
  is_list records = false ->
  Lambda.message_of (VDict fields) = Raise (non_list_error records).
Proof.
  intros HR Hkind. unfold Lambda.message_of. cbn [py_get rbind].
  rewrite HR. destruct records as [| b | z | [|c s] | items | d];
    try discriminate; reflexivity.
Qed.

Lemma message_of_unshaped (event : value) :
  lookup_shaped event = false ->
  exists e, lookup_error e /\ Lambda.message_of event = Raise e.
Proof.
  unfold lookup_error.
  destruct event as [| | | | |fields];
    try (intros _; exists AttributeError; split; [tauto | reflexivity]).
  cbn [lookup_shaped].
  destruct (dict_lookup "Records" fields) as [records|] eqn:HR;
    [|discriminate].
  destruct (is_list records) eqn:Hkind.
  - destruct records as [| | | |items|]; try discriminate.
    unfold Lambda.message_of. cbn [py_get rbind]. rewrite HR.
    destruct items as [|first others].
    + intros _. exists IndexError. split; [tauto | reflexivity].
    + rewrite py_getitem_first.
      destruct first as [| | | | |first];
        try (intros _; exists AttributeError; split; [tauto | reflexivity]).
      cbn [py_get rbind].
      destruct (dict_lookup "Sns" first) as [sns|]; [|discriminate].
      destruct sns; try discriminate;
        intros _; exists AttributeError; split; try tauto; reflexivity.
  - intros _. exists (non_list_error records).
    split; [|now apply message_of_non_list].
    destruct records as [| | | [|] | |]; cbn; try tauto; discriminate.
Qed.

Section Further.
Context {DB : Type} `{TableCapability DB} {C : Type}.
Implicit Types (table : table_resource) (event m : value) (context : C)
  (w : World DB).

(** X2: an event the lookup cannot walk makes the handler raise one of
    [AttributeError], [IndexError], [TypeError], [KeyError(0)] once the
    event has been printed: nothing is sent to the table. *)
Theorem notifier_raises_before_the_table table event context w :
  lookup_shaped event = false ->
  exists e,
    lookup_error e
    /\ Lambda.lambda_handler C table event context w
       = (Raise e, printed event w).
Proof.
  intros Hshape. destruct (message_of_unshaped _ Hshape) as (e & He & Hm).
  exists e. split; [assumption|]. now rewrite notifier_run, Hm.
Qed.

(** X3: a [Records] that is not a list decides the exception by its
    kind: [TypeError] for null, a boolean or a number, [KeyError(0)] for
    an object, [IndexError] for the empty string, [AttributeError] for
    any other string. *)
Theorem notifier_non_list_records table fields (records : value) context w :
  dict_lookup "Records" fields = Some records ->
  is_list records = false ->
  fst (Lambda.lambda_handler C table (VDict fields) context w)
  = Raise (match records with
           | VNone | VBool _ | VInt _ => TypeError
           | VDict _ => KeyError (VInt 0)
           | VStr EmptyString => IndexError
           | _ => AttributeError
           end).
Proof.
  intros HR Hkind.
  rewrite notifier_run, (message_of_non_list _ _ HR Hkind).
  destruct records as [| | | [|] | |]; reflexivity.
Qed.

(** X4: only the first element of [Records] is read: two events whose
    [Records] start with the same element lead to the same outcome, the
    same requests and the same tables. *)
Theorem notifier_reads_first_record_only
    table fields1 fields2 (first : value) (others1 others2 : list value)
    context w :
  dict_lookup "Records" fields1 = Some (VList (first :: others1)) ->
  dict_lookup "Records" fields2 = Some (VList (first :: others2)) ->
  let run1 := Lambda.lambda_handler C table (VDict fields1) context w in
  let run2 := Lambda.lambda_handler C table (VDict fields2) context w in
  fst run1 = fst run2
  /\ requests (snd run1) = requests (snd run2)
  /\ db (snd run1) = db (snd run2).
Proof.
  intros H1 H2. cbv zeta.
  assert (Hsame : Lambda.message_of (VDict fields1)
                  = Lambda.message_of (VDict fields2)).
  { unfold Lambda.message_of. cbn [py_get rbind].
    now rewrite H1, H2, !py_getitem_first. }
  rewrite !notifier_run, Hsame.
  destruct (Lambda.message_of (VDict fields2)) as [m|e]; [|repeat split].
  destruct (put_item _ _ _); repeat split.
Qed.

(** X5: whatever the event and whatever the outcome, the handler prints
    exactly one line, leaves the clock alone, and either sends nothing
    and leaves the tables as they were, or sends exactly one request, a
    put on its own table. *)
Theorem notifier_effects table event context w :
  let run := Lambda.lambda_handler C table event context w in
  clock (snd run) = clock w
  /\ stdout (snd run) = List.app (stdout w) [received_line event]
  /\ ((requests (snd run) = requests w /\ db (snd run) = db w)
      \/ exists item,
           requests (snd run) = List.app (requests w) [PutItem table item]).
Proof.
  cbv zeta. rewrite notifier_run.
  destruct (Lambda.message_of event) as [m|e].
  - destruct (put_item _ _ _); repeat split; right; eexists; reflexivity.
  - repeat split. left. split; reflexivity.
Qed.

(** X6: for an event whose numbers are integers (the events of this
    model: a number with a fraction or an exponent, and with it
    [Infinity] and [NaN], is not covered), the line printed is
    ["Received event: "] followed by JSON text in printable ASCII that
    reads back as the event itself, also when the handler raises
    afterwards. *)
Theorem notifier_logs_the_event table event context w :
  exists text,
    stdout (snd (Lambda.lambda_handler C table event context w))
    = List.app (stdout w) ["Received event: " ++ text]
    /\ json_parse text = Some event
    /\ all_printable text = true.
Proof.
  exists (json_dumps event). rewrite notifier_run. repeat split.
  - destruct (Lambda.message_of event) as [m|e]; [|reflexivity].
    destruct (put_item _ _ _); reflexivity.
  - apply json_parse_dumps.
  - apply json_dumps_printable.
Qed.

(** X7: the handler reports success only for a record it has stored:
    when it returns, the answer is [{ statusCode: 200, body: "Log stored" }],
    the event was one the lookup can walk, and the put of the record
    succeeded and made the tables what they now are. *)
Theorem notifier_success_means_stored table event context w (answer : value) :
  fst (Lambda.lambda_handler C table event context w) = Ok answer ->
  answer = log_stored
  /\ lookup_shaped event = true
  /\ exists m,
       Lambda.message_of event = Ok m
       /\ put_item table (record_of (isoformat (clock w)) m) (db w)
          = Ok (db (snd (Lambda.lambda_handler C table event context w))).
Proof.
  rewrite notifier_run.
  destruct (Lambda.message_of event) as [m|e] eqn:Hm; [|discriminate].
  destruct (put_item _ _ _) as [tables|e] eqn:Hput; [|discriminate].
  cbn [fst snd]. intros [= <-]. repeat split.
  - destruct (lookup_shaped event) eqn:Hshape; [reflexivity|].
    destruct (message_of_unshaped _ Hshape) as (e & _ & He). congruence.
  - exists m. split; [reflexivity | assumption].
Qed.

(** X9: the log reader only reads: on every path, failure included, it
    sends exactly one request, a scan of its own table with limit 10,
    prints nothing and leaves the tables as they were. *)
Theorem reader_effects table event context w :
  let run := API_Integration.lambda_handler C table event context w in
  requests (snd run) = List.app (requests w) [Scan table 10]
  /\ db (snd run) = db w
  /\ stdout (snd run) = stdout w
  /\ clock (snd run) = clock w.
Proof.
  cbv zeta. rewrite reader_run.
  destruct (scan table 10 (db w)) as [response|e]; [|repeat split].
  destruct (obj_get response "Items" (PList [])) as [items|e];
    [|repeat split].
  destruct (json_dumps_obj items); repeat split.
Qed.

(** X10: whatever the records hold, the body of a response is printable
    ASCII: no control character and no character above ['~'] is sent
    raw. *)
Theorem reader_body_is_printable table event context w (body : string) :
  fst (API_Integration.lambda_handler C table event context w)
  = Ok (json_response body) ->
  all_printable body = true.
Proof.
  rewrite reader_run.
  destruct (scan table 10 (db w)) as [response|e]; [|discriminate].
  destruct (obj_get response "Items" (PList [])) as [items|e];
    [|discriminate].
  destruct (json_dumps_obj items) as [text|e] eqn:Htext; [|discriminate].
  cbn [fst]. unfold json_response. intros [= <-].
  destruct (json_dumps_obj_ok _ _ Htext) as (v & _ & ->).
  apply json_dumps_printable.
Qed.

(** X8: two invocations put records with the same [id] only when their
    clocks read the same instant, to the microsecond. *)
Theorem notifier_same_id_same_instant
    table1 table2 event1 event2 (context1 context2 : C)
    (w1 w2 : World DB) (item1 item2 : value) :
  valid_datetime (clock w1) = true ->
  valid_datetime (clock w2) = true ->
  requests (snd (Lambda.lambda_handler C table1 event1 context1 w1))
  = List.app (requests w1) [PutItem table1 item1] ->
  requests (snd (Lambda.lambda_handler C table2 event2 context2 w2))
  = List.app (requests w2) [PutItem table2 item2] ->
  py_get item1 "id" VNone = py_get item2 "id" VNone ->
  clock w1 = clock w2.
Proof.
  intros Hv1 Hv2. rewrite !notifier_run.
  destruct (Lambda.message_of event1) as [m1|e1].
  - destruct (Lambda.message_of event2) as [m2|e2].
    + intros Hr1 Hr2.
      assert (Hi1 : item1 = record_of (isoformat (clock w1)) m1).
      { destruct (put_item table1 _ (db w1)); cbn in Hr1;
          apply app_inv_head in Hr1; congruence. }
      assert (Hi2 : item2 = record_of (isoformat (clock w2)) m2).
      { destruct (put_item table2 _ (db w2)); cbn in Hr2;
          apply app_inv_head in Hr2; congruence. }
      subst item1 item2. cbn. intros [= Hid].
      now apply isoformat_inj.
    + intros _ Hr2. cbn in Hr2.
      apply (f_equal (@List.length request)) in Hr2.
      rewrite length_app in Hr2. cbn in Hr2. lia.
  - intros Hr1. cbn in Hr1.
    apply (f_equal (@List.length request)) in Hr1.
    rewrite length_app in Hr1. cbn in Hr1. lia.
Qed.

(** X11: what the notifier wrote the reader serves, as long as the scan
    hands back JSON kinds only: when the put succeeds and a scan of the
    resulting tables returns records that are JSON values, the record
    just put among them, the reader, run next, answers with JSON for a
    list that holds [{ id, message }].  (A message that is a number
    comes back as a [Decimal], which is no JSON value: the hypothesis
    fails and so does the reader.) *)
Theorem notifier_then_reader
    table event m context w (tables : DB) (response : pyobj)
    (items : list pyobj) (records : list value) :
  Lambda.message_of event = Ok m ->
  put_item table (record_of (isoformat (clock w)) m) (db w) = Ok tables ->
  scan table 10 tables = Ok response ->
  scanned_items response = Some items ->
  to_values items = Some records ->
  In (record_of (isoformat (clock w)) m) records ->
  let w' := snd (Lambda.lambda_handler C table event context w) in
  exists body parsed,
    fst (API_Integration.lambda_handler C table event context w')
    = Ok (json_response body)
    /\ json_parse body = Some (VList parsed)
    /\ In (VDict [("id", VStr (isoformat (clock w))); ("message", m)])
         parsed.
Proof.
  intros Hm Hput Hscan Hitems Hrecords Hin. cbv zeta.
  exists (json_dumps (VList records)), records.
  rewrite notifier_run, Hm, Hput. cbn [snd].
  rewrite reader_run. unfold after_put. cbn [db].
  rewrite Hscan, (scanned_items_get _ _ Hitems).
  rewrite (json_dumps_obj_spec (PList items)), to_value_list, Hrecords.
  repeat split; [apply json_parse_dumps | assumption].
Qed.

(** X12: with [DDB_TABLE] set to a name, an invocation of either function
    from a cold start sends requests to the table of that name and to no
    other. *)
Theorem handlers_use_the_configured_table
    (environ : environment) (name : string) event context w :
  environ !! "DDB_TABLE" = Some name ->
  (exists sent,
     requests (snd (invoke (Lambda.table environ)
                      (Lambda.lambda_handler C) event context w))
     = List.app (requests w) sent
     /\ Forall (fun r => request_table r = Table name) sent)
  /\ (exists sent,
        requests (snd (invoke (API_Integration.table environ)
                         (API_Integration.lambda_handler C)
                         event context w))
        = List.app (requests w) sent
        /\ Forall (fun r => request_table r = Table name) sent).
Proof.
  intros Hset.
  unfold invoke, Lambda.table, Lambda.table_name, API_Integration.table,
    API_Integration.table_name.
  rewrite Hset. cbn [rbind]. split.
  - rewrite notifier_run.
    destruct (Lambda.message_of event) as [m|e].
    + exists [PutItem (Table name) (record_of (isoformat (clock w)) m)].
      split; [destruct (put_item _ _ _); reflexivity|].
      repeat constructor.
    + exists []. split; [cbn; now rewrite app_nil_r | constructor].
  - rewrite reader_run. exists [Scan (Table name) 10].
    split; [|repeat constructor].
    destruct (scan _ _ _) as [response|e]; [|reflexivity].
    destruct (obj_get response "Items" (PList [])) as [items|e];
      [|reflexivity].
    destruct (json_dumps_obj items); reflexivity.
Qed.
End Further.

(** * The further properties on the in-memory table service *)

Lemma notifier_fallback_message_witness :
  lacks_message bare_record_event
  /\ requests
       (snd (Lambda.lambda_handler unit (Table "logs") bare_record_event tt
               mem_world))
     = List.app (requests mem_world)
         [PutItem (Table "logs")
            (record_of (isoformat (clock mem_world)) (VStr "Test alert"))].
Proof.
  assert (Hlacks : lacks_message bare_record_event)
    by (eapply lacks_Sns; reflexivity).
  split; [exact Hlacks|].
  apply (notifier_fallback_message (C := unit)). exact Hlacks.
Defined.

Lemma notifier_raises_before_the_table_witness :
  lookup_shaped (VStr "ping") = false
  /\ exists e,
       lookup_error e
       /\ Lambda.lambda_handler unit (Table "logs") (VStr "ping") tt mem_world
          = (Raise e, printed (VStr "ping") mem_world).
Proof.
  split; [reflexivity|].
  apply (notifier_raises_before_the_table (C := unit)). reflexivity.
Defined.

Lemma notifier_non_list_records_witness :
  fst (Lambda.lambda_handler unit (Table "logs")
         (VDict [("Records", VNone)]) tt mem_world)
  = Raise TypeError.
Proof.
  apply (notifier_non_list_records (C := unit) (Table "logs")
           [("Records", VNone)] VNone tt mem_world); reflexivity.
Defined.

Lemma notifier_reads_first_record_only_witness :
  let run1 :=
    Lambda.lambda_handler unit (Table "logs") batch_event tt mem_world in
  let run2 :=
    Lambda.lambda_handler unit (Table "logs") single_event tt mem_world in
  fst run1 = fst run2
  /\ requests (snd run1) = requests (snd run2)
  /\ db (snd run1) = db (snd run2).
Proof.
  apply (notifier_reads_first_record_only (C := unit) (Table "logs")
           [("Records",
             VList [VDict [("Sns", VDict [("Message", VStr "first")])];
                    VDict [("Sns", VDict [("Message", VStr "second")])]])]
           [("Records",
             VList [VDict [("Sns", VDict [("Message", VStr "first")])]])]
           (VDict [("Sns", VDict [("Message", VStr "first")])])
           [VDict [("Sns", VDict [("Message", VStr "second")])]] []
           tt mem_world); reflexivity.
Defined.

Lemma notifier_success_means_stored_witness :
  fst (Lambda.lambda_handler unit (Table "logs") cpu_alarm_event tt mem_world)
  = Ok log_stored
  /\ lookup_shaped cpu_alarm_event = true
  /\ exists m,
       Lambda.message_of cpu_alarm_event = Ok m
       /\ put_item (Table "logs") (record_of (isoformat (clock mem_world)) m)
            (db mem_world)
          = Ok (db (snd (Lambda.lambda_handler unit (Table "logs")
                           cpu_alarm_event tt mem_world))).
Proof.
  split; [reflexivity|].
  apply (notifier_success_means_stored (C := unit) (Table "logs")
           cpu_alarm_event tt mem_world log_stored). reflexivity.
Defined.

Lemma notifier_same_id_same_instant_witness :
  py_get (record_of "2024-05-17T09:03:07" (VStr "Test alert")) "id" VNone
  = py_get (record_of "2024-05-17T09:03:07" (VStr "CPU alarm triggered"))
      "id" VNone
  /\ clock mem_world = clock mem_world.
Proof.
  split; [reflexivity|].
  apply (notifier_same_id_same_instant (C := unit)
           (Table "logs") (Table "logs") (VDict []) cpu_alarm_event tt tt
           mem_world mem_world
           (record_of "2024-05-17T09:03:07" (VStr "Test alert"))
           (record_of "2024-05-17T09:03:07" (VStr "CPU alarm triggered")));
    reflexivity.
Defined.

Lemma reader_body_is_printable_witness :
  fst (API_Integration.lambda_handler unit (Table "logs") VNone tt
         world_of_three)
  = Ok (json_response (json_dumps (VList three_records)))
  /\ all_printable (json_dumps (VList three_records)) = true.
Proof.
  split; [reflexivity|].
  apply (reader_body_is_printable (C := unit) (Table "logs") VNone tt
           world_of_three). reflexivity.
Defined.

Lemma notifier_then_reader_witness :
  let record := record_of "2024-05-17T09:03:07" (VStr "CPU alarm triggered") in
  let returned :=
    PDict [("id", PStr "2024-05-17T09:03:07");
           ("message", PStr "CPU alarm triggered")] in
  let w' :=
    snd (Lambda.lambda_handler unit (Table "logs") cpu_alarm_event tt
           mem_world) in
  scan (Table "logs") 10 (db w')
  = Ok (PDict [("Items", PList [returned]); ("Count", PInt 1)])
  /\ to_values [returned] = Some [record]
  /\ exists body parsed,
       fst (API_Integration.lambda_handler unit (Table "logs")
              cpu_alarm_event tt w')
       = Ok (json_response body)
       /\ json_parse body = Some (VList parsed)
       /\ In (VDict [("id", VStr (isoformat (clock mem_world)));
                     ("message", VStr "CPU alarm triggered")]) parsed.
Proof.
  cbv zeta. split; [reflexivity|]. split; [reflexivity|].
  apply (notifier_then_reader (C := unit) (Table "logs") cpu_alarm_event
           (VStr "CPU alarm triggered") tt mem_world
           (<[ "logs" := [PDict [("id", PStr "2024-05-17T09:03:07");
                                 ("message", PStr "CPU alarm triggered")]] ]>
              (db mem_world))
           (PDict [("Items",
                    PList [PDict [("id", PStr "2024-05-17T09:03:07");
                                  ("message", PStr "CPU alarm triggered")]]);
                   ("Count", PInt 1)])
           [PDict [("id", PStr "2024-05-17T09:03:07");
                   ("message", PStr "CPU alarm triggered")]]
           [record_of "2024-05-17T09:03:07" (VStr "CPU alarm triggered")]).
  - reflexivity.
  - reflexivity.
  - reflexivity.
  - reflexivity.
  - reflexivity.
  - left. reflexivity.
Defined.

Lemma handlers_use_the_configured_table_witness :
  logs_environ !! "DDB_TABLE" = Some "logs"
  /\ (exists sent,
        requests (snd (invoke (Lambda.table logs_environ)
                         (Lambda.lambda_handler unit) cpu_alarm_event tt
                         mem_world))
        = List.app (requests mem_world) sent
        /\ Forall (fun r => request_table r = Table "logs") sent)
  /\ (exists sent,
        requests (snd (invoke (API_Integration.table logs_environ)
                         (API_Integration.lambda_handler unit)
                         cpu_alarm_event tt mem_world))
        = List.app (requests mem_world) sent
        /\ Forall (fun r => request_table r = Table "logs") sent).
Proof.
  split; [reflexivity|].
  apply (handlers_use_the_configured_table (C := unit)). reflexivity.
Defined.
